(** * COVID-19 Chile chart: a shallow embedding of the browser code

    The development follows the layout of the repository:
    - [JS]     the fragment of ECMAScript the chart relies on (numbers, values,
               string-to-number conversion, the global predicates);
    - [Date]   Date objects: calendar arithmetic on time values;
    - [D3]     the D3 v7 calls the chart makes (dsv, time-format, array, scale,
               shape, axis, selection), modelled from D3's documented behaviour;
    - [Utils]  assets/js/utils.js, with [debounce] over the browser's timer
               table;
    - [Config] assets/js/config.js (both revisions found in the sources);
    - [Page]   the state the chart modules share: window width, root element,
               container content, rows in memory, listeners;
    - [Chart]  assets/js/chart.js, the revision with a legend;
    - [ChartDirect]  the revision of chart.js with direct labels, the Spanish
               locale and the free-text comments.
    The properties come last, after the vocabulary their statements use.

    Conventions.  A finite JavaScript number is carried as an exact rational:
    rounding to binary64 and the sign of zero are left out, overflow to
    [Infinity] when a numeral is read is kept.  A [Date] is carried as its time
    value in milliseconds, with the browser's time zone taken to be UTC.  The
    rounding of a scale's domain by [.nice()] is a parameter of the chart
    modules. *)

From Stdlib Require Import ZArith QArith Qcanon String Ascii List Sorted.
From stdpp Require Import base numbers option list strings pretty gmap.

Local Open Scope Z_scope.

(* ===================================================================== *)
(** ** ECMAScript fragment                                                *)
(* ===================================================================== *)

Module JS.

(** Number values. *)
Inductive number :=
| NaN
| PosInf
| NegInf
| Fin (q : Qc).

#[global] Instance number_eq_dec : EqDecision number.
Proof. solve_decision. Defined.

Definition ofZ (z : Z) : number := Fin (Q2Qc (inject_Z z)).
Definition ofQ (q : Q) : number := Fin (Q2Qc q).

(** [dec m k] is the decimal literal whose digits are [m], with [k] of them
    after the point: [dec 1013 2] is 10.13. *)
Definition dec (m : Z) (k : nat) : number :=
  ofQ (inject_Z m / inject_Z (10 ^ Z.of_nat k)).

Definition Qc_ltb (a b : Qc) : bool := bool_decide (a < b)%Qc.
Definition Qc_leb (a b : Qc) : bool := bool_decide (a ≤ b)%Qc.
Definition Qc_eqb (a b : Qc) : bool := bool_decide (a = b).

(** The relational operators on numbers: any comparison with NaN is false. *)
Definition lt (a b : number) : bool :=
  match a, b with
  | NaN, _ | _, NaN => false
  | PosInf, _ => false
  | _, NegInf => false
  | NegInf, _ => true
  | _, PosInf => true
  | Fin x, Fin y => Qc_ltb x y
  end.

Definition le (a b : number) : bool :=
  match a, b with
  | NaN, _ | _, NaN => false
  | NegInf, _ => true
  | _, PosInf => true
  | PosInf, _ => false
  | _, NegInf => false
  | Fin x, Fin y => Qc_leb x y
  end.

Definition ge (a b : number) : bool := le b a.
Definition gt (a b : number) : bool := lt b a.

(** Strict equality on numbers ([NaN === NaN] is false). *)
Definition eq (a b : number) : bool :=
  match a, b with
  | PosInf, PosInf | NegInf, NegInf => true
  | Fin x, Fin y => Qc_eqb x y
  | _, _ => false
  end.

Definition neg (a : number) : number :=
  match a with
  | NaN => NaN
  | PosInf => NegInf
  | NegInf => PosInf
  | Fin x => Fin (- x)%Qc
  end.

Definition add (a b : number) : number :=
  match a, b with
  | NaN, _ | _, NaN => NaN
  | PosInf, NegInf | NegInf, PosInf => NaN
  | PosInf, _ | _, PosInf => PosInf
  | NegInf, _ | _, NegInf => NegInf
  | Fin x, Fin y => Fin (x + y)%Qc
  end.

Definition sub (a b : number) : number := add a (neg b).

Definition sgn_inf (positive : bool) : number := if positive then PosInf else NegInf.

Definition mul (a b : number) : number :=
  match a, b with
  | NaN, _ | _, NaN => NaN
  | Fin x, Fin y => Fin (x * y)%Qc
  | Fin x, PosInf | PosInf, Fin x =>
      if Qc_eqb x 0 then NaN else sgn_inf (Qc_ltb 0 x)
  | Fin x, NegInf | NegInf, Fin x =>
      if Qc_eqb x 0 then NaN else sgn_inf (Qc_ltb x 0)
  | PosInf, PosInf | NegInf, NegInf => PosInf
  | PosInf, NegInf | NegInf, PosInf => NegInf
  end.

(** Division.  A zero divisor is read as [+0] (the sign of zero is not
    tracked); the scale code below tests its divisor before dividing. *)
Definition div (a b : number) : number :=
  match a, b with
  | NaN, _ | _, NaN => NaN
  | Fin x, Fin y =>
      if Qc_eqb y 0
      then (if Qc_eqb x 0 then NaN else sgn_inf (Qc_ltb 0 x))
      else Fin (x / y)%Qc
  | Fin _, _ => Fin 0%Qc
  | PosInf, Fin y => sgn_inf (Qc_leb 0 y)
  | NegInf, Fin y => sgn_inf (Qc_ltb y 0)
  | _, _ => NaN
  end.

(** Language values, as far as rows of the chart hold them. *)
Inductive value :=
| VUndefined
| VNull
| VNum (n : number)
| VStr (s : string)
| VDate (t : Z).

#[global] Instance value_eq_dec : EqDecision value.
Proof. solve_decision. Defined.

(** *** StringToNumber (the unary [+] on a string) *)

Definition code (c : ascii) : nat := nat_of_ascii c.

(** White space and line terminators; only the ASCII ones are modelled. *)
Definition is_ws (c : ascii) : bool :=
  (code c =? 32)%nat || ((9 <=? code c)%nat && (code c <=? 13)%nat).

Definition is_digit (c : ascii) : bool :=
  (48 <=? code c)%nat && (code c <=? 57)%nat.

Fixpoint takeWhile {A} (p : A → bool) (l : list A) : list A :=
  match l with
  | x :: r => if p x then x :: takeWhile p r else []
  | [] => []
  end.

Fixpoint dropWhile {A} (p : A → bool) (l : list A) : list A :=
  match l with
  | x :: r => if p x then dropWhile p r else l
  | [] => []
  end.

Definition trim (l : list ascii) : list ascii :=
  rev (dropWhile is_ws (rev (dropWhile is_ws l))).

(** The value of a digit in radix up to 16, if it is one. *)
Definition digit_value (c : ascii) : option Z :=
  let n := Z.of_nat (code c) in
  if (48 <=? n) && (n <=? 57) then Some (n - 48)
  else if (97 <=? n) && (n <=? 102) then Some (n - 87)
  else if (65 <=? n) && (n <=? 70) then Some (n - 55)
  else None.

Definition is_radix_digit (radix : Z) (c : ascii) : bool :=
  match digit_value c with
  | Some d => d <? radix
  | None => false
  end.

Definition digits_to_Z (radix : Z) (ds : list ascii) : Z :=
  fold_left (fun acc c => acc * radix + default 0 (digit_value c)) ds 0.

Definition pow10 (e : Z) : Q :=
  if 0 <=? e then inject_Z (10 ^ e) else / inject_Z (10 ^ (- e)).

(** Rounding to binary64, reduced to its overflow: a magnitude of at least
    2^1024 - 2^970 rounds to an infinity. *)
Definition overflow_bound : Q := inject_Z (2 ^ 1024 - 2 ^ 970).

Definition round (q : Q) : number :=
  if Qle_bool overflow_bound q then PosInf
  else if Qle_bool q (- overflow_bound) then NegInf
  else ofQ q.

(** Rounding of a rational to the nearest binary64 value, ties to even: 53
    significant bits, least exponent -1074, overflow to an infinity.  It is
    applied where a statement below depends on it ([parseInt], the label
    position); elsewhere sums and products stay exact. *)

(** For [q > 0], the [e] with [2^e <= q < 2^(e+1)]. *)
Definition floor_log2 (q : Q) : Z :=
  let n := Qnum q in
  let d := Zpos (Qden q) in
  let e0 := Z.log2 n - Z.log2 d in
  let below := if 0 <=? e0 then 2 ^ e0 * d <=? n else d <=? n * 2 ^ (- e0) in
  if below then e0 else e0 - 1.

Definition pow2 (p : Z) : Q :=
  if 0 <=? p then inject_Z (2 ^ p) else / inject_Z (2 ^ (- p)).

(** The integer nearest to [q >= 0], the even one of two equally near. *)
Definition round_half_even (q : Q) : Z :=
  let n := Qnum q in
  let d := Zpos (Qden q) in
  let fl := n / d in
  let r := n mod d in
  if 2 * r <? d then fl
  else if d <? 2 * r then fl + 1
  else if Z.even fl then fl else fl + 1.

Definition to_double_pos (a : Q) : option Q :=
  let p := Z.max (floor_log2 a - 52) (-1074) in
  let v := (inject_Z (round_half_even (a / pow2 p)) * pow2 p)%Q in
  if Qle_bool (inject_Z (2 ^ 1024)) v then None else Some v.

(** Integers up to 2^53 in magnitude are binary64 values themselves. *)
Definition to_double (q : Q) : number :=
  let r := Qred q in
  if (Qden r =? 1)%positive && (Z.abs (Qnum r) <=? 2 ^ 53) then ofQ q
  else if 0 <? Qnum r
       then match to_double_pos r with Some v => ofQ v | None => PosInf end
       else match to_double_pos (- r)%Q with Some v => ofQ (- v)%Q | None => NegInf end.

Definition fround (n : number) : number :=
  match n with
  | Fin q => to_double (this q)
  | _ => n
  end.

(** ExponentPart, optional: what follows the mantissa must be it, whole. *)
Definition parse_exponent (l : list ascii) : option Z :=
  match l with
  | [] => Some 0
  | c :: r =>
      if (code c =? 101)%nat || (code c =? 69)%nat then
        let '(s, r') :=
          match r with
          | "+"%char :: r' => (1, r')
          | "-"%char :: r' => (-1, r')
          | _ => (1, r)
          end in
        let ds := takeWhile is_digit r' in
        match ds, dropWhile is_digit r' with
        | _ :: _, [] => Some (s * digits_to_Z 10 ds)
        | _, _ => None
        end
      else None
  end.

Definition ascii_list (s : string) : list ascii := list_ascii_of_string s.

(** StrUnsignedDecimalLiteral. *)
Definition parse_unsigned (l : list ascii) : option number :=
  if bool_decide (l = ascii_list "Infinity") then Some PosInf else
  let ip := takeWhile is_digit l in
  let r1 := dropWhile is_digit l in
  let '(fp, r2) :=
    match r1 with
    | "."%char :: r => (takeWhile is_digit r, dropWhile is_digit r)
    | _ => ([], r1)
    end in
  match ip ++ fp with
  | [] => None
  | ds =>
      e ← parse_exponent r2;
      Some (round (inject_Z (digits_to_Z 10 ds) * pow10 (e - Z.of_nat (length fp))))
  end.

(** StrDecimalLiteral: an optional sign, then the unsigned literal. *)
Definition parse_decimal (l : list ascii) : option number :=
  match l with
  | "+"%char :: r => parse_unsigned r
  | "-"%char :: r => neg <$> parse_unsigned r
  | _ => parse_unsigned l
  end.

(** NonDecimalIntegerLiteral: 0x, 0o, 0b (either case), then digits. *)
Definition parse_nondecimal (l : list ascii) : option number :=
  match l with
  | "0"%char :: p :: ((_ :: _) as ds) =>
      let radix :=
        if (code p =? 120)%nat || (code p =? 88)%nat then Some 16
        else if (code p =? 111)%nat || (code p =? 79)%nat then Some 8
        else if (code p =? 98)%nat || (code p =? 66)%nat then Some 2
        else None in
      r ← radix;
      if forallb (is_radix_digit r) ds
      then Some (round (inject_Z (digits_to_Z r ds)))
      else None
  | _ => None
  end.

Definition StringToNumber (s : string) : number :=
  match trim (ascii_list s) with
  | [] => Fin 0%Qc
  | l =>
      match parse_nondecimal l with
      | Some n => n
      | None => default NaN (parse_decimal l)
      end
  end.

(** ToNumber, and the unary plus that applies it. *)
Definition ToNumber (v : value) : number :=
  match v with
  | VUndefined => NaN
  | VNull => Fin 0%Qc
  | VNum n => n
  | VStr s => StringToNumber s
  | VDate t => ofZ t
  end.

Definition plus (v : value) : value := VNum (ToNumber v).

(** The global [isNaN] and [isFinite] convert their argument first. *)
Definition isNaN (v : value) : bool :=
  match ToNumber v with NaN => true | _ => false end.

Definition isFinite (v : value) : bool :=
  match ToNumber v with Fin _ => true | _ => false end.

Definition typeof_number (v : value) : bool :=
  match v with VNum _ => true | _ => false end.

Definition instanceof_Date (v : value) : bool :=
  match v with VDate _ => true | _ => false end.

(** ToBoolean. *)
Definition truthy (v : value) : bool :=
  match v with
  | VUndefined | VNull => false
  | VNum NaN => false
  | VNum (Fin q) => negb (Qc_eqb q 0)
  | VNum _ => true
  | VStr s => negb (bool_decide (s = ""%string))
  | VDate _ => true
  end.

End JS.

(* ===================================================================== *)
(** ** Date objects                                                       *)
(* ===================================================================== *)

Module Date.

Definition msPerDay : Z := 86400000.

Definition is_leap (y : Z) : bool :=
  (y mod 4 =? 0) && (negb (y mod 100 =? 0) || (y mod 400 =? 0)).

(** DayFromYear of ECMA-262: the day number of 1 January of year [y]. *)
Definition DayFromYear (y : Z) : Z :=
  365 * (y - 1970) + (y - 1969) / 4 - (y - 1901) / 100 + (y - 1601) / 400.

(** Days before the first of month [m] (0 = January) within a year. *)
Definition month_start (leap : bool) (m : Z) : Z :=
  let l := if leap then 1 else 0 in
  match m with
  | 0 => 0 | 1 => 31 | 2 => 59 + l | 3 => 90 + l | 4 => 120 + l
  | 5 => 151 + l | 6 => 181 + l | 7 => 212 + l | 8 => 243 + l
  | 9 => 273 + l | 10 => 304 + l | _ => 334 + l
  end.

(** MakeDay: month and date overflow into the following months and years,
    nothing is rejected. *)
Definition MakeDay (year month date : Z) : Z :=
  let ym := year + month / 12 in
  let mn := month mod 12 in
  DayFromYear ym + month_start (is_leap ym) mn + date - 1.

(** [new Date(year, month, date)]: a two-digit year counts from 1900. *)
Definition construct (year month date : Z) : Z :=
  let y := if (0 <=? year) && (year <=? 99) then 1900 + year else year in
  MakeDay y month date * msPerDay.

Definition Day (t : Z) : Z := t / msPerDay.
Definition TimeWithinDay (t : Z) : Z := t mod msPerDay.

(** The civil date (year, month from 0, day of month) of a day number. *)
Definition civil (z : Z) : Z * Z * Z :=
  let z := z + 719468 in
  let era := z / 146097 in
  let doe := z - era * 146097 in
  let yoe := (doe - doe / 1460 + doe / 36524 - doe / 146096) / 365 in
  let doy := doe - (365 * yoe + yoe / 4 - yoe / 100) in
  let mp := (5 * doy + 2) / 153 in
  let d := doy - (153 * mp + 2) / 5 + 1 in
  let m := if mp <? 10 then mp + 2 else mp - 10 in
  let y := yoe + era * 400 + (if m <=? 1 then 1 else 0) in
  (y, m, d).

Definition getFullYear (t : Z) : Z := (civil (Day t)).1.1.
Definition getMonth (t : Z) : Z := (civil (Day t)).1.2.
Definition getDate (t : Z) : Z := (civil (Day t)).2.

Definition setFullYear (t : Z) (y : Z) : Z :=
  MakeDay y (getMonth t) (getDate t) * msPerDay + TimeWithinDay t.

End Date.

(* ===================================================================== *)
(** ** The D3 calls of the chart                                          *)
(* ===================================================================== *)

Module D3.
Import JS.

(** *** Rows

    An object with the three properties the chart reads.  [d3.csv] yields
    rows whose properties are strings ([VUndefined] for a column the header
    lacks); the loader maps them to rows holding a Date or null and two
    numbers. *)
Record Row := mkRow { date : value; deaths_7d : value; vaccinated_pct : value }.

(** *** d3-dsv: [csvParse], on text with no double quote and no carriage
    return, where its tokenizer splits at line feeds and commas. *)

Fixpoint split (sep : ascii) (l : list ascii) : list (list ascii) :=
  match l with
  | [] => [[]]
  | c :: r =>
      if bool_decide (c = sep) then [] :: split sep r
      else match split sep r with
           | h :: t => (c :: h) :: t
           | [] => [[c]]
           end
  end.

(** The trailing line feed is dropped; the empty text has no line at all. *)
Definition csv_lines (text : string) : list (list string) :=
  let l := ascii_list text in
  let l := match rev l with
           | c :: r => if bool_decide (c = "010"%char) then rev r else l
           | [] => l
           end in
  match l with
  | [] => []
  | _ => map (fun line => map string_of_list_ascii (split ","%char line))
             (split "010"%char l)
  end.

(** The property [name] of the object [{c0: d[0] || "", c1: d[1] || "", ...}]
    built for a line: a later column of the same name wins, a column the
    header lacks reads as undefined. *)
Fixpoint property (columns : list string) (d : list string) (name : string) : value :=
  match columns with
  | [] => VUndefined
  | c :: cs =>
      match property cs (tail d) name with
      | VUndefined =>
          if bool_decide (c = name) then VStr (default ""%string (head d))
          else VUndefined
      | v => v
      end
  end.

Definition csvParse (text : string) : list Row :=
  match csv_lines text with
  | [] => []
  | columns :: rows =>
      map (fun d => {| date := property columns d "date";
                       deaths_7d := property columns d "deaths_7d";
                       vaccinated_pct := property columns d "vaccinated_pct" |})
          rows
  end.

(** *** d3-time-format *)

(** [numberRe = /^\s*\d+/] run on [string.slice(i, i + w)]: the number read
    and the rest of the string after the match. *)
Definition parse_number (w : nat) (l : list ascii) : option (Z * list ascii) :=
  let window := take w l in
  let ws := takeWhile is_ws window in
  let ds := takeWhile is_digit (dropWhile is_ws window) in
  match ds with
  | [] => None
  | _ => Some (digits_to_Z 10 ds, drop (length ws + length ds) l)
  end.

Definition parse_literal (c : ascii) (l : list ascii) : option (list ascii) :=
  match l with
  | c' :: r => if bool_decide (c' = c) then Some r else None
  | [] => None
  end.

(** [localDate]: fields in local time; years 0 to 99 go through
    [setFullYear], since the Date constructor would add 1900 to them. *)
Definition localDate (y m d : Z) : Z :=
  if (0 <=? y) && (y <? 100)
  then Date.setFullYear (Date.construct (-1) m d) y
  else Date.construct y m d.

(** [d3.timeParse('%Y-%m-%d')] on a string: the whole string must match;
    month and day are not checked against the calendar. *)
Definition parse_ymd (s : string) : option Z :=
  '(y, l1) ← parse_number 4 (ascii_list s);
  l2 ← parse_literal "-"%char l1;
  '(m, l3) ← parse_number 2 l2;
  l4 ← parse_literal "-"%char l3;
  '(d, l5) ← parse_number 2 l4;
  match l5 with
  | [] => Some (localDate y (m - 1) d)
  | _ => None
  end.

(** The parser converts its argument to a string first.  The string of
    undefined, null, a number or a Date never has the shape digits, hyphen,
    digits, hyphen, digits, so only strings can parse. *)
Definition timeParse_ymd (v : value) : value :=
  match v with
  | VStr s => from_option VDate VNull (parse_ymd s)
  | _ => VNull
  end.

(** Locale definitions, for the one field the chart's formats read. *)
Record locale := { shortMonths : list string }.

Definition en_US : locale :=
  {| shortMonths := ["Jan"; "Feb"; "Mar"; "Apr"; "May"; "Jun";
                     "Jul"; "Aug"; "Sep"; "Oct"; "Nov"; "Dec"]%string |}.

Fixpoint repeat_string (s : string) (n : nat) : string :=
  match n with
  | O => ""
  | S k => s ++ repeat_string s k
  end.

Definition pad (v : Z) (fill : string) (width : nat) : string :=
  let sign := if v <? 0 then "-"%string else ""%string in
  let s := pretty (Z.abs v) in
  sign ++ (if (String.length s <? width)%nat
           then repeat_string fill (width - String.length s) ++ s
           else s).

(** The directives b, Y, m, d and %; any other letter is written as it is
    (what d3 does with a letter it has no format for). *)
Definition directive (loc : locale) (t : Z) (c : ascii) (fill : string) : string :=
  if bool_decide (c = "b"%char)
  then default ""%string (shortMonths loc !! Z.to_nat (Date.getMonth t))
  else if bool_decide (c = "Y"%char) then pad (Z.rem (Date.getFullYear t) 10000) fill 4
  else if bool_decide (c = "m"%char) then pad (Date.getMonth t + 1) fill 2
  else if bool_decide (c = "d"%char) then pad (Date.getDate t) fill 2
  else String c "".

Definition pad_flag (c : ascii) : option string :=
  if bool_decide (c = "-"%char) then Some ""%string
  else if bool_decide (c = "_"%char) then Some " "%string
  else if bool_decide (c = "0"%char) then Some "0"%string
  else None.

Fixpoint format_spec (loc : locale) (t : Z) (spec : list ascii) : string :=
  match spec with
  | [] => ""
  | c :: r =>
      if bool_decide (c = "%"%char) then
        match r with
        | [] => ""
        | c1 :: r1 =>
            match pad_flag c1, r1 with
            | Some fill, c2 :: r2 => directive loc t c2 fill ++ format_spec loc t r2
            | Some fill, [] => ""
            | None, _ =>
                directive loc t c1 (if bool_decide (c1 = "e"%char) then " " else "0")
                  ++ format_spec loc t r1
            end
        end
      else String c (format_spec loc t r)
  end.

Definition timeFormat (loc : locale) (specifier : string) (t : Z) : string :=
  format_spec loc t (ascii_list specifier).

(** *** d3-array: [extent] and [max] over the values an accessor returns.
    Values are compared as numbers, which is what [<] does on the Dates and
    numbers rows hold. *)
Definition js_lt (a b : value) : bool := lt (ToNumber a) (ToNumber b).
Definition js_ge (a b : value) : bool := ge (ToNumber a) (ToNumber b).

Definition is_nullish (v : value) : bool :=
  match v with VUndefined | VNull => true | _ => false end.

Definition extent (vs : list value) : value * value :=
  fold_left (fun '(mn, mx) v =>
    if is_nullish v then (mn, mx)
    else match mn with
         | VUndefined => if js_ge v v then (v, v) else (mn, mx)
         | _ => (if js_lt v mn then v else mn, if js_lt mx v then v else mx)
         end) vs (VUndefined, VUndefined).

Definition max (vs : list value) : value :=
  fold_left (fun mx v =>
    if negb (is_nullish v)
       && (js_lt mx v || (bool_decide (mx = VUndefined) && js_ge v v))
    then v else mx) vs VUndefined.

(** *** d3-scale: continuous scales with a two-point domain and range,
    no clamping. *)
Record continuous := { domain : number * number; range : number * number }.

Definition normalize (a b : number) (x : number) : number :=
  let b := sub b a in
  if truthy (VNum b) then div (sub x a) b
  else match b with NaN => NaN | _ => dec 5 1 end.

Definition interpolateNumber (a b t : number) : number :=
  add (mul a (sub (ofZ 1) t)) (mul b t).

(** [scale(x)]: [unknown] (undefined) for null, undefined and any input
    that is not a number, read here as NaN. *)
Definition scale (s : continuous) (x : value) : number :=
  if is_nullish x then NaN else
  match ToNumber x with
  | NaN => NaN
  | x =>
      let '(d0, d1) := domain s in
      let '(r0, r1) := range s in
      if lt d1 d0 then interpolateNumber r1 r0 (normalize d1 d0 x)
      else interpolateNumber r0 r1 (normalize d0 d1 x)
  end.

Definition scaleTime (dom : value * value) (rng : number * number) : continuous :=
  {| domain := (ToNumber dom.1, ToNumber dom.2); range := rng |}.

Definition scaleLinear (dom : value * value) (rng : number * number) : continuous :=
  {| domain := (ToNumber dom.1, ToNumber dom.2); range := rng |}.

(** [.nice()] rounds the domain outwards to round numbers; which ones is
    D3's tick arithmetic, taken as the parameter [nice]. *)
Definition niced (nice : number * number → number * number) (s : continuous) : continuous :=
  {| domain := nice (domain s); range := range s |}.

(** *** d3-shape: the runs of consecutive defined points of a line. *)
Fixpoint segments {A} (defined : A → bool) (cur : list A) (l : list A) : list (list A) :=
  match l with
  | [] => match cur with [] => [] | _ => [rev cur] end
  | d :: r =>
      if defined d then segments defined (d :: cur) r
      else match cur with
           | [] => segments defined [] r
           | _ => rev cur :: segments defined [] r
           end
  end.

Definition line {A} (x y : A → number) (defined : A → bool) (data : list A)
  : list (list (number * number)) :=
  map (map (fun d => (x d, y d))) (segments defined [] data).

(** *** d3-axis and d3-selection: the drawing surface *)

Inductive orient := Bottom | Left | Right.
Inductive tick_format := DefaultFormat | FormatAxisDate | FormatPercentage.

(** An axis generator's settings; the ticks and domain line it renders are
    summarised by them and by the styles later applied to its parts, each
    keyed by the part's selector and the property.  [ticks] is the argument
    of [.ticks()]: the count asked of D3, which draws about that many ticks
    at round values of the scale, not necessarily that number. *)
Record axis := {
  orientation : orient;
  axis_scale : continuous;
  ticks : Z;
  tickFormat : tick_format;
  tickPadding : Z;
  part_styles : list (string * string)
}.

Inductive attr_value :=
| ANum (n : number)
| AStr (s : string)
| ATranslate (x y : number)
| AViewBox (x y w h : number)
| APath (d : list (list (number * number)))
| ACall (a : axis).

#[warnings="-register-all"]
Inductive node := El (tag : string) (attrs : list (string * attr_value)) (children : list node).

Definition tag (e : node) : string := match e with El t _ _ => t end.
Definition attrs (e : node) : list (string * attr_value) := match e with El _ a _ => a end.
Definition children (e : node) : list node := match e with El _ _ c => c end.

Definition get_attr (k : string) (e : node) : option attr_value :=
  snd <$> find (fun p => bool_decide (p.1 = k)) (attrs e).

(** [selection.append(tag)] creates the element; [attr], [style] and [text]
    set a named value on it, replacing an earlier one of that name. *)
Definition append (t : string) : node := El t [] [].

Fixpoint set_assoc {V} (k : string) (v : V) (l : list (string * V)) : list (string * V) :=
  match l with
  | [] => [(k, v)]
  | (k', v') :: r => if bool_decide (k' = k) then (k, v) :: r else (k', v') :: set_assoc k v r
  end.

Definition attr (k : string) (v : attr_value) (e : node) : node :=
  match e with El t a c => El t (set_assoc k v a) c end.

Definition style (k : string) (v : string) (e : node) : node :=
  attr ("style:" ++ k) (AStr v) e.

Definition text (s : string) (e : node) : node := attr "text" (AStr s) e.

Definition child (c : node) (e : node) : node :=
  match e with El t a cs => El t a (cs ++ [c]) end.

(** Number of elements of a subtree, and of a list of them. *)
Fixpoint count (e : node) : nat :=
  match e with
  | El _ _ cs => S (foldr (fun c n => (count c + n)%nat) O cs)
  end.

Definition count_all (l : list node) : nat := foldr (fun c n => (count c + n)%nat) O l.

(** [selection.select(sel)]: the first match among the descendants, in
    document order. *)
Fixpoint any_within (p : node → bool) (e : node) : bool :=
  match e with
  | El _ _ cs => p e || existsb (any_within p) cs
  end.

Definition select_empty (p : node → bool) (l : list node) : bool :=
  negb (existsb (any_within p) l).

Fixpoint append_first (p : node → bool) (new : node) (e : node) : option node :=
  match e with
  | El t a cs =>
      if p e then Some (El t a (cs ++ [new]))
      else El t a <$>
           (fix go (l : list node) : option (list node) :=
              match l with
              | [] => None
              | c :: r =>
                  match append_first p new c with
                  | Some c' => Some (c' :: r)
                  | None => cons c <$> go r
                  end
              end) cs
  end.

(** [svg.select(sel).append(...)]: nothing happens on an empty selection. *)
Fixpoint select_append (p : node → bool) (new : node) (l : list node) : list node :=
  match l with
  | [] => []
  | c :: r =>
      match append_first p new c with
      | Some c' => c' :: r
      | None => c :: select_append p new r
      end
  end.

(** [selection.attr(name, null)] removes the attribute. *)
Definition remove_attr (k : string) (e : node) : node :=
  match e with
  | El t a c => El t (List.filter (fun p => negb (bool_decide (p.1 = k))) a) c
  end.

(** An attribute read from a property that may be missing (undefined). *)
Definition attr_opt (k : string) (v : option attr_value) (e : node) : node :=
  match v with
  | Some v => attr k v e
  | None => remove_attr k e
  end.

(** The words of a class attribute. *)
Definition has_class (c : string) (e : node) : bool :=
  match get_attr "class" e with
  | Some (AStr s) =>
      existsb (fun w => bool_decide (string_of_list_ascii w = c))
              (split " "%char (ascii_list s))
  | _ => false
  end.

(** Apply [f] to every element of a subtree, parents after children. *)
Fixpoint map_tree (f : node → node) (e : node) : node :=
  match e with
  | El t a cs => f (El t a (map (map_tree f) cs))
  end.

Definition has_tag (t : string) (e : node) : bool := bool_decide (tag e = t).
Definition has_id (i : string) (e : node) : bool :=
  match get_attr "id" e with
  | Some (AStr s) => bool_decide (s = i)
  | _ => false
  end.

End D3.

(* ===================================================================== *)
(** ** assets/js/utils.js                                                 *)
(* ===================================================================== *)

Module Utils.
Import JS D3.

(** [formatAxisDate]: [d3.timeFormat('%b %Y')], under the default locale in
    force when it is called. *)
Definition formatAxisDate (loc : locale) (date : Z) : string :=
  timeFormat loc "%b %Y" date.

(** Number::toString, for the numbers whose string is plain decimal digits:
    the integers below 10^21 in magnitude, NaN and the infinities. *)
Definition number_to_string (n : number) : option string :=
  match n with
  | NaN => Some "NaN"%string
  | PosInf => Some "Infinity"%string
  | NegInf => Some "-Infinity"%string
  | Fin q =>
      let z := Qnum (this q) in
      if bool_decide (Qden (this q) = 1%positive) && (Z.abs z <? 10 ^ 21)
      then Some (pretty z) else None
  end.

(** [formatPercentage]: the template [`${value}%`]. *)
Definition formatPercentage (v : number) : option string :=
  (fun s => s ++ "%")%string <$> number_to_string v.

(** [isMobile]: [window.innerWidth <= breakpoint]. *)
Definition isMobile (innerWidth : number) (breakpoint : number) : bool :=
  le innerWidth breakpoint.

Definition getTickCount (mobile : bool) : Z := if mobile then 4 else 6.

Record label_position := { lp_x : number; textAnchor : string }.

Definition getSafeLabelPosition (x width labelWidth : number) : label_position :=
  let rightEdge := fround (add x labelWidth) in
  let needsRepositioning := gt rightEdge width in
  {| lp_x := if needsRepositioning
             then fround (sub (fround (sub x labelWidth)) (ofZ 8))
             else fround (add x (ofZ 8));
     textAnchor := if needsRepositioning then "end" else "start" |}.

(** Style objects, and the spread [{ ...baseStyle, ...mobileStyle }]: the
    properties of both, those of [mobileStyle] winning. *)
Definition getResponsiveLineStyle (baseStyle mobileStyle : gmap string number)
    (mobile : bool) : gmap string number :=
  if mobile then mobileStyle ∪ baseStyle else baseStyle.

(** *** [debounce], over the browser's timer table

    [A] is the type of the argument list of a call, [W] the state [func]
    acts on.  A timer holds its deadline and the arguments its [later]
    closure captured. *)
Section Debounce.
Context {A W : Type}.
Variable func : A → W → W.
Variable wait : Z.

Record loop := {
  timeout : option nat;            (* the closure's variable, undefined at first *)
  next_id : nat;                   (* the next timer id the browser hands out *)
  pending : gmap nat (Z * A);      (* the browser's timers *)
  world : W
}.

Definition clearTimeout (id : option nat) (p : gmap nat (Z * A)) : gmap nat (Z * A) :=
  match id with
  | Some i => delete i p
  | None => p
  end.

(** A call of the debounced function at time [now]. *)
Definition executedFunction (now : Z) (args : A) (s : loop) : loop :=
  let p := clearTimeout (timeout s) (pending s) in
  {| timeout := Some (next_id s);
     next_id := S (next_id s);
     pending := <[next_id s := (now + Z.max 0 wait, args)]> p;
     world := world s |}.

(** The timer [id] fires: the browser drops it and runs [later]. *)
Definition fire (id : nat) (args : A) (s : loop) : loop :=
  let p := delete id (pending s) in
  {| timeout := timeout s;
     next_id := next_id s;
     pending := clearTimeout (timeout s) p;
     world := func args (world s) |}.

(** The timer due first at time [t]: least deadline, then least id. *)
Definition earlier (x y : nat * (Z * A)) : bool :=
  (x.2.1 <? y.2.1) || ((x.2.1 =? y.2.1) && (x.1 <? y.1)%nat).

Definition next_due (t : Z) (p : gmap nat (Z * A)) : option (nat * (Z * A)) :=
  foldr (fun x best =>
           if x.2.1 <=? t then
             match best with
             | Some y => if earlier y x then Some y else Some x
             | None => Some x
             end
           else best)
        None (map_to_list p).

(** Time passes up to [t]: the due timers fire in order. *)
Fixpoint fire_due (fuel : nat) (t : Z) (s : loop) : loop :=
  match fuel with
  | O => s
  | S k =>
      match next_due t (pending s) with
      | Some (id, (_, args)) => fire_due k t (fire id args s)
      | None => s
      end
  end.

Definition advance (t : Z) (s : loop) : loop := fire_due (size (pending s)) t s.

(** A run of the page: calls at given times, then quiet until [t_end]. *)
Definition run (calls : list (Z * A)) (t_end : Z) (s : loop) : loop :=
  advance t_end
    (fold_left (fun s '(t, args) => executedFunction t args (advance t s)) calls s).

Definition start (w : W) : loop :=
  {| timeout := None; next_id := O; pending := ∅; world := w |}.

End Debounce.

(** [String.prototype.replace] with a string pattern: the first
    occurrence is replaced. *)
Fixpoint replace_first (pat rep l : list ascii) : list ascii :=
  if bool_decide (take (length pat) l = pat) then rep ++ drop (length pat) l
  else match l with
       | [] => []
       | c :: r => c :: replace_first pat rep r
       end.

Definition replace (pat rep s : string) : string :=
  string_of_list_ascii (replace_first (ascii_list pat) (ascii_list rep) (ascii_list s)).

(** [parseInt] with no radix: leading white space, a sign, [0x] for
    radix 16, then the longest run of digits, whose value is rounded to
    binary64; NaN when there is none. *)
Definition parseInt (s : string) : number :=
  let l := dropWhile is_ws (ascii_list s) in
  let '(sign, l) :=
    match l with
    | c :: r => if bool_decide (c = "-"%char) then (-1, r)
                else if bool_decide (c = "+"%char) then (1, r)
                else (1, l)
    | [] => (1, l)
    end in
  let '(radix, l) :=
    match l with
    | c1 :: c2 :: r =>
        if bool_decide (c1 = "0"%char)
           && (bool_decide (c2 = "x"%char) || bool_decide (c2 = "X"%char))
        then (16, r) else (10, l)
    | _ => (10, l)
    end in
  match takeWhile (is_radix_digit radix) l with
  | [] => NaN
  | ds => fround (ofZ (sign * digits_to_Z radix ds))
  end.

(** [Math.max] of two numbers: NaN if either is. *)
Definition Math_max (a b : number) : number :=
  match a, b with
  | NaN, _ | _, NaN => NaN
  | _, _ => if lt a b then b else a
  end.

(** [getResponsiveFontSize]; the result is [None] where the string of the
    number is outside what [number_to_string] models. *)
Definition getResponsiveFontSize (baseSize : string) (mobile : bool) : option string :=
  if negb mobile then Some baseSize
  else
    let size := parseInt (replace "px" "" baseSize) in
    (fun s => s ++ "px")%string
      <$> number_to_string (Math_max (ofZ 10) (fround (sub size (ofZ 1)))).

(** [validateData], on an array. *)
Definition validateData (data : list Row) : bool :=
  if bool_decide (length data = O) then false
  else forallb (fun d =>
         instanceof_Date (date d) &&
         typeof_number (deaths_7d d) &&
         typeof_number (vaccinated_pct d) &&
         negb (isNaN (deaths_7d d)) &&
         negb (isNaN (vaccinated_pct d)) &&
         isFinite (deaths_7d d) &&
         isFinite (vaccinated_pct d)) data.

End Utils.

(* ===================================================================== *)
(** ** assets/js/config.js                                                *)
(* ===================================================================== *)

(** The constants both revisions of config.js share, and the types of the
    tables in which they differ. *)
Module Config.
Import JS D3.
Local Open Scope string_scope.

Record margins := { top : number; right : number; bottom : number; left : number }.
Record chart_config := { cfg_width : number; cfg_height : number; margin : margins }.

Definition CHART_CONFIG : chart_config :=
  {| cfg_width := ofZ 720; cfg_height := ofZ 400;
     margin := {| top := ofZ 56; right := ofZ 92; bottom := ofZ 65; left := ofZ 56 |} |}.

Definition COLORS_deaths := "#d62728".
Definition COLORS_vaccination := "#1f77b4".
Definition COLORS_grid := "#999".
Definition COLORS_text := "#555".
Definition COLORS_milestone : gmap string string :=
  <["primary" := "#AAA"]> (<["secondary" := "#BBB"]> (<["tertiary" := "#CCC"]> ∅)).

Definition LINE_STYLES_deaths : gmap string number :=
  <["strokeWidth" := dec 18 1]> (<["strokeOpacity" := dec 8 1]> ∅).
Definition LINE_STYLES_vaccination : gmap string number :=
  <["strokeWidth" := dec 18 1]> (<["strokeOpacity" := dec 8 1]> ∅).
Definition LINE_STYLES_mobile_deaths : gmap string number :=
  <["strokeWidth" := dec 15 1]> (<["strokeOpacity" := dec 75 2]> ∅).

(** A milestone label is a string or an array of lines. *)
Inductive label := Single (s : string) | Lines (l : list string).

Record milestone := {
  m_date : string;
  m_label : label;
  m_style : string;
  strokeWidth : number;
  dashArray : string;
  yOffset : number
}.

Definition BREAKPOINTS_mobile : number := ofZ 480.

(** A free-text comment: a date or a date range, the axis its value is
    on, anchor and pixel offsets (absent ones are undefined). *)
Record comment := {
  c_id : string;
  c_date : option string;
  c_dateRange : option (list string);
  c_yType : string;
  c_yValue : number;
  c_anchor : option string;
  c_dx : option number;
  c_dy : option number;
  c_text : label
}.

(** The revision chart.js imports. *)
Module Legend.

Definition MILESTONES : list milestone :=
  [ {| m_date := "2021-02-03"; m_label := Single "Inicio de vacunación";
       m_style := "primary"; strokeWidth := ofZ 1; dashArray := "2,3";
       yOffset := ofZ (-30) |};
    {| m_date := "2021-08-11"; m_label := Single "Inicio de refuerzo";
       m_style := "secondary"; strokeWidth := ofZ 1; dashArray := "2,3";
       yOffset := ofZ (-45) |};
    {| m_date := "2022-01-15"; m_label := Single "Ola Ómicron";
       m_style := "tertiary"; strokeWidth := ofZ 1; dashArray := "2,3";
       yOffset := ofZ (-30) |} ].

Definition labels_deaths := "Fallecidos (promedio 7 días)".
Definition labels_vaccination := "% Vacunados".
Definition annotation_text1 := "Descenso posterior".
Definition annotation_text2 := "a vacunación".
Definition annotation_date := "2021-10-01".

End Legend.

(** The revision with direct labels and comments. *)
Module Direct.

Definition MILESTONES : list milestone :=
  [ {| m_date := "2021-02-03"; m_label := Lines ["Inicio"; "Vacunación"];
       m_style := "primary"; strokeWidth := ofZ 1; dashArray := "2,3";
       yOffset := ofZ (-40) |};
    {| m_date := "2021-08-11"; m_label := Lines ["Inicio"; "Refuerzo"];
       m_style := "secondary"; strokeWidth := ofZ 1; dashArray := "2,3";
       yOffset := ofZ (-40) |} ].

Definition labels_deaths := "Fallecidos (a 7 días)".
Definition labels_vaccination := "% Vacunados".

Definition omicronAnnotation_text : label :=
  Lines ["La nueva cepa Ómicron,"; "altamente contagiosa y"; "con múltiples mutaciones"].
Definition omicronAnnotation_date := "2022-03-01".

Definition COMMENTS : list comment :=
  [ {| c_id := "yellow"; c_date := Some "2020-07-15"; c_dateRange := None;
       c_yType := "left"; c_yValue := ofZ 24; c_anchor := Some "start";
       c_dx := Some (ofZ 0); c_dy := Some (ofZ 0);
       c_text := Lines ["Cuarentena total"; "generalizada"] |};
    {| c_id := "blue"; c_date := Some "2021-03-15"; c_dateRange := None;
       c_yType := "left"; c_yValue := ofZ 135; c_anchor := Some "middle";
       c_dx := Some (ofZ 0); c_dy := Some (ofZ (-10));
       c_text := Lines ["Baja vacunación"; "y cepa Gamma"] |};
    {| c_id := "violet"; c_date := Some "2021-11-10"; c_dateRange := None;
       c_yType := "left"; c_yValue := ofZ 90; c_anchor := Some "middle";
       c_dx := Some (ofZ 0); c_dy := Some (ofZ 6);
       c_text := Lines ["40–60% con 1 dosis"; "e inmunidad natural"] |} ].

End Direct.

End Config.

(* ===================================================================== *)
(** ** The page                                                           *)
(* ===================================================================== *)

(** What the chart modules read and write besides their arguments: the
    window width, the element [#chart-root] (when the page has one), the
    content written over [#chart-container], the module variable
    [chartData] and the resize listeners registered.  Whether the root lies
    inside the container is the page's matter; both are kept. *)
Module Page.
Import JS D3.

Record config := { width : number; height : number }.
Record scales := { xScale : continuous; yLeftScale : continuous; yRightScale : continuous }.

Record page := {
  innerWidth : number;
  root : option node;
  container_html : option string;
  chartData : option (list Row);
  chart_scales : option scales;
  listeners : nat
}.

Definition quote : string := String (ascii_of_nat 34) "".

Definition error_message : string :=
  ("<p class=" ++ quote ++ "error-message" ++ quote
   ++ ">Error cargando datos. Verificar que assets/data.csv existe.</p>")%string.

(** The [catch] branch of [initChart]. *)
Definition show_error (p : page) : page :=
  {| innerWidth := innerWidth p; root := root p;
     container_html := Some error_message;
     chartData := chartData p; chart_scales := chart_scales p;
     listeners := listeners p |}.

(** The elements drawn under the root. *)
Definition drawn (p : page) : list node :=
  match root p with
  | Some e => children e
  | None => []
  end.

Definition label_string (l : Config.label) : string :=
  match l with
  | Config.Single s => s
  | Config.Lines ls => String.concat "," ls
  end.

End Page.

Notation "e |> f" := (f e) (at level 45, left associativity, only parsing).

(* ===================================================================== *)
(** ** assets/js/chart.js                                                 *)
(* ===================================================================== *)

Module Chart.
Import JS D3 Utils Config Config.Legend Page.
Local Open Scope string_scope.
Local Open Scope list_scope.

Section WithNice.
Variable nice : number * number → number * number.

Definition buildScales (data : list Row) (config : config) : scales :=
  {| xScale := scaleTime (extent (map date data)) (ofZ 0, width config);
     yLeftScale :=
       niced nice (scaleLinear (VNum (ofZ 0), max (map deaths_7d data))
                               (height config, ofZ 0));
     yRightScale :=
       scaleLinear (VNum (ofZ 0), VNum (ofZ 100)) (height config, ofZ 0) |}.

(** Styling a part of a rendered axis. *)
Definition part_style (key value : string) (e : node) : node :=
  match get_attr "call" e with
  | Some (ACall a) =>
      attr "call"
        (ACall {| orientation := orientation a; axis_scale := axis_scale a;
                  ticks := ticks a; tickFormat := tickFormat a;
                  tickPadding := tickPadding a;
                  part_styles := set_assoc key value (part_styles a) |}) e
  | _ => e
  end.

(** [svg.selectAll('.axis ...')]: the parts of the axes rendered in
    elements of class [axis]. *)
Definition style_axes (key value : string) (e : node) : node :=
  if has_class "axis" e then part_style key value e else e.

Definition style_all_axes (e : node) : node :=
  e |> style_axes ".domain/stroke" COLORS_grid
    |> style_axes ".domain/stroke-width" "1"
    |> style_axes ".tick line/stroke" COLORS_grid
    |> style_axes ".tick line/stroke-width" "1"
    |> style_axes ".tick text/fill" COLORS_text
    |> style_axes ".tick text/font-size" "11px".

Definition new_axis (o : orient) (s : continuous) : axis :=
  {| orientation := o; axis_scale := s; ticks := 10; tickFormat := DefaultFormat;
     tickPadding := 3; part_styles := [] |}.

Definition with_ticks (n : Z) (a : axis) : axis :=
  {| orientation := orientation a; axis_scale := axis_scale a; ticks := n;
     tickFormat := tickFormat a; tickPadding := tickPadding a;
     part_styles := part_styles a |}.

Definition with_tickFormat (f : tick_format) (a : axis) : axis :=
  {| orientation := orientation a; axis_scale := axis_scale a; ticks := ticks a;
     tickFormat := f; tickPadding := tickPadding a;
     part_styles := part_styles a |}.

Definition with_tickPadding (n : Z) (a : axis) : axis :=
  {| orientation := orientation a; axis_scale := axis_scale a; ticks := ticks a;
     tickFormat := tickFormat a; tickPadding := n;
     part_styles := part_styles a |}.

Definition drawAxes (w : number) (svg : list node) (scales : scales) (config : config)
  : list node :=
  let mobile := isMobile w BREAKPOINTS_mobile in
  let xAxis := new_axis Bottom (xScale scales)
                 |> with_tickFormat FormatAxisDate
                 |> with_ticks (getTickCount mobile) in
  let yLeftAxis := new_axis Left (yLeftScale scales) |> with_ticks 6 in
  let yRightAxis := new_axis Right (yRightScale scales)
                      |> with_ticks 5
                      |> with_tickFormat FormatPercentage
                      |> with_tickPadding 8 in
  let xAxisGroup := append "g"
        |> attr "class" (AStr "axis axis--x")
        |> attr "transform" (ATranslate (ofZ 0) (height config))
        |> attr "call" (ACall xAxis) in
  let yLeftAxisGroup := append "g"
        |> attr "class" (AStr "axis axis--left")
        |> attr "call" (ACall yLeftAxis) in
  let yRightAxisGroup := append "g"
        |> attr "class" (AStr "axis axis--right")
        |> attr "transform" (ATranslate (width config) (ofZ 0))
        |> attr "call" (ACall yRightAxis) in
  map (map_tree style_all_axes) svg ++
  [ style_all_axes xAxisGroup;
    style_all_axes yLeftAxisGroup
      |> part_style ".tick text/fill" COLORS_deaths
      |> part_style ".tick line/stroke" COLORS_deaths
      |> part_style ".tick line/opacity" "0.6";
    style_all_axes yRightAxisGroup
      |> part_style ".tick text/fill" COLORS_vaccination
      |> part_style ".tick line/stroke" COLORS_vaccination
      |> part_style ".tick line/opacity" "0.6" ].

(** The [d] attribute a line generator computes: removed (null) when no
    point is defined. *)
Definition path_d (d : list (list (number * number))) : option attr_value :=
  match d with
  | [] => None
  | _ => Some (APath d)
  end.

Definition drawLines (w : number) (svg : list node) (data : list Row) (scales : scales)
    (config : config) : list node :=
  let mobile := isMobile w BREAKPOINTS_mobile in
  let deathsLine :=
    line (fun d => scale (xScale scales) (date d))
         (fun d => scale (yLeftScale scales) (deaths_7d d))
         (fun d => truthy (date d) && negb (isNaN (deaths_7d d)) && isFinite (deaths_7d d)) in
  let vaccinationLine :=
    line (fun d => scale (xScale scales) (date d))
         (fun d => scale (yRightScale scales) (vaccinated_pct d))
         (fun d => truthy (date d) && negb (isNaN (vaccinated_pct d))
                   && isFinite (vaccinated_pct d)) in
  let deathsStyle :=
    getResponsiveLineStyle LINE_STYLES_deaths LINE_STYLES_mobile_deaths mobile in
  svg ++
  [ append "path"
      |> attr "class" (AStr "line line--deaths")
      |> attr "fill" (AStr "none")
      |> attr "stroke" (AStr COLORS_deaths)
      |> attr_opt "stroke-width" (ANum <$> deathsStyle !! "strokeWidth")
      |> attr_opt "stroke-opacity" (ANum <$> deathsStyle !! "strokeOpacity")
      |> attr_opt "d" (path_d (deathsLine data));
    append "path"
      |> attr "class" (AStr "line line--vaccination")
      |> attr "fill" (AStr "none")
      |> attr "stroke" (AStr COLORS_vaccination)
      |> attr_opt "stroke-width" (ANum <$> LINE_STYLES_vaccination !! "strokeWidth")
      |> attr_opt "stroke-opacity" (ANum <$> LINE_STYLES_vaccination !! "strokeOpacity")
      |> attr_opt "d" (path_d (vaccinationLine data)) ].

Definition milestone_arrow : node :=
  append "marker"
    |> attr "id" (AStr "milestone-arrow")
    |> attr "markerWidth" (ANum (ofZ 4))
    |> attr "markerHeight" (ANum (ofZ 4))
    |> attr "refX" (ANum (ofZ 2))
    |> attr "refY" (ANum (ofZ 2))
    |> attr "orient" (AStr "auto")
    |> child (append "polygon"
                |> attr "points" (AStr "0 0, 4 2, 0 4")
                |> attr "fill" (AStr "#666")).

(** The body of the [forEach] of [addMilestones]. *)
Definition addMilestone (scales : scales) (config : config) (svg : list node)
    (milestone : milestone) : list node :=
  let milestoneDate := timeParse_ymd (VStr (m_date milestone)) in
  let x := scale (xScale scales) milestoneDate in
  if ge x (ofZ 0) && le x (width config) then
    let svg := svg ++
      [ append "line"
          |> attr "class" (AStr ("milestone milestone--" ++ m_style milestone)%string)
          |> attr "x1" (ANum x)
          |> attr "x2" (ANum x)
          |> attr "y1" (ANum (ofZ 0))
          |> attr "y2" (ANum (height config))
          |> attr_opt "stroke" (AStr <$> COLORS_milestone !! m_style milestone)
          |> attr "stroke-width" (ANum (strokeWidth milestone))
          |> attr "stroke-dasharray" (AStr (dashArray milestone))
          |> attr "stroke-opacity" (ANum (dec 4 1)) ] in
    let labelGroup := append "g"
          |> attr "class" (AStr "milestone-label")
          |> attr "transform" (ATranslate x (yOffset milestone))
          |> child (append "text"
                      |> attr "class" (AStr "milestone-text")
                      |> attr "x" (ANum (ofZ 0))
                      |> attr "y" (ANum (ofZ 0))
                      |> attr "text-anchor" (AStr "middle")
                      |> style "font-size" "10px"
                      |> style "fill" "#888"
                      |> style "font-weight" "400"
                      |> text (label_string (m_label milestone)))
          |> child (append "line"
                      |> attr "x1" (ANum (ofZ 0))
                      |> attr "y1" (ANum (ofZ 5))
                      |> attr "x2" (ANum (ofZ 0))
                      |> attr "y2" (ANum (ofZ 15))
                      |> attr "stroke" (AStr "#666")
                      |> attr "stroke-width" (ANum (ofZ 1))
                      |> attr "marker-end" (AStr "url(#milestone-arrow)")) in
    let svg := svg ++ [labelGroup] in
    if select_empty (has_id "milestone-arrow") svg
    then select_append (has_tag "defs") milestone_arrow svg
    else svg
  else svg.

Definition addMilestones (svg : list node) (scales : scales) (config : config)
  : list node :=
  let svg := if select_empty (has_tag "defs") svg then svg ++ [append "defs"] else svg in
  fold_left (addMilestone scales config) MILESTONES svg.

Definition addDirectLabels (svg : list node) (data : list Row) (scales : scales)
    (config : config) : list node :=
  if bool_decide (length data = O) then svg else
  let legendGroup := append "g"
        |> attr "class" (AStr "legend")
        |> attr "transform" (ATranslate (sub (width config) (ofZ 160)) (ofZ (-35))) in
  let footnote := append "text"
        |> attr "class" (AStr "source-footnote")
        |> attr "x" (ANum (ofZ 0))
        |> attr "y" (ANum (add (height config) (ofZ 35)))
        |> style "font-size" "10px"
        |> style "fill" "#777"
        |> text "Fuente: MinCiencia y MINSAL — DP37, DP77, DP10. Cobertura máxima alcanzada: ~90% de la población." in
  let legendGroup := legendGroup
        |> child (append "line"
                    |> attr "x1" (ANum (ofZ 0))
                    |> attr "x2" (ANum (ofZ 20))
                    |> attr "y1" (ANum (ofZ 0))
                    |> attr "y2" (ANum (ofZ 0))
                    |> attr "stroke" (AStr COLORS_deaths)
                    |> attr_opt "stroke-width" (ANum <$> LINE_STYLES_deaths !! "strokeWidth"))
        |> child (append "text"
                    |> attr "x" (ANum (ofZ 25))
                    |> attr "y" (ANum (ofZ 4))
                    |> attr "fill" (AStr COLORS_deaths)
                    |> attr "class" (AStr "legend-text")
                    |> style "font-size" "12px"
                    |> style "font-weight" "400"
                    |> text labels_deaths)
        |> child (append "line"
                    |> attr "x1" (ANum (ofZ 0))
                    |> attr "x2" (ANum (ofZ 20))
                    |> attr "y1" (ANum (ofZ 15))
                    |> attr "y2" (ANum (ofZ 15))
                    |> attr "stroke" (AStr COLORS_vaccination)
                    |> attr_opt "stroke-width" (ANum <$> LINE_STYLES_vaccination !! "strokeWidth"))
        |> child (append "text"
                    |> attr "x" (ANum (ofZ 25))
                    |> attr "y" (ANum (ofZ 19))
                    |> attr "fill" (AStr COLORS_vaccination)
                    |> attr "class" (AStr "legend-text")
                    |> style "font-size" "12px"
                    |> style "font-weight" "400"
                    |> text labels_vaccination) in
  svg ++ [legendGroup; footnote].

(** [addAnnotations] of this revision (no caller uses it): nothing guards
    the position. *)
Definition addAnnotations (svg : list node) (scales : scales) (config : config)
  : list node :=
  let defs := append "defs"
        |> child (append "marker"
                    |> attr "id" (AStr "arrowhead")
                    |> attr "markerWidth" (ANum (ofZ 6))
                    |> attr "markerHeight" (ANum (ofZ 4))
                    |> attr "refX" (ANum (ofZ 5))
                    |> attr "refY" (ANum (ofZ 2))
                    |> attr "orient" (AStr "auto")
                    |> child (append "polygon"
                                |> attr "points" (AStr "0 0, 6 2, 0 4")
                                |> attr "fill" (AStr "#666"))) in
  let annotationDate := timeParse_ymd (VStr annotation_date) in
  let annotationX := scale (xScale scales) annotationDate in
  let annotationY := mul (height config) (dec 7 1) in
  svg ++
  [ defs;
    append "line"
      |> attr "class" (AStr "annotation-arrow")
      |> attr "x1" (ANum (sub annotationX (ofZ 50)))
      |> attr "y1" (ANum (add annotationY (ofZ 10)))
      |> attr "x2" (ANum (sub annotationX (ofZ 15)))
      |> attr "y2" (ANum (sub annotationY (ofZ 25)))
      |> attr "stroke" (AStr "#666")
      |> attr "stroke-width" (ANum (ofZ 1))
      |> attr "marker-end" (AStr "url(#arrowhead)");
    append "text"
      |> attr "class" (AStr "annotation-text")
      |> attr "x" (ANum (sub annotationX (ofZ 75)))
      |> attr "y" (ANum (add annotationY (ofZ 15)))
      |> attr "fill" (AStr "#666")
      |> attr "text-anchor" (AStr "middle")
      |> text annotation_text1;
    append "text"
      |> attr "class" (AStr "annotation-text")
      |> attr "x" (ANum (sub annotationX (ofZ 75)))
      |> attr "y" (ANum (add annotationY (ofZ 27)))
      |> attr "fill" (AStr "#666")
      |> attr "text-anchor" (AStr "middle")
      |> text annotation_text2 ].

Definition chart_size : config :=
  {| width := sub (sub (cfg_width CHART_CONFIG) (left (margin CHART_CONFIG)))
                  (right (margin CHART_CONFIG));
     height := sub (sub (cfg_height CHART_CONFIG) (top (margin CHART_CONFIG)))
                   (bottom (margin CHART_CONFIG)) |}.

Definition new_group : node :=
  append "g" |> attr "transform"
    (ATranslate (left (margin CHART_CONFIG)) (top (margin CHART_CONFIG))).

Definition with_children (cs : list node) (e : node) : node :=
  match e with El t a _ => El t a cs end.

(** The function [makeResponsive] debounces: clear, then rebuild from the
    rows in memory. *)
Definition resizeChart (p : page) : page :=
  match root p with
  | None => p
  | Some svg =>
      let svg := with_children [] svg in
      match chartData p with
      | Some ((_ :: _) as data) =>
          let config := chart_size in
          let scales := buildScales data config in
          let g := drawAxes (innerWidth p) [] scales config in
          let g := drawLines (innerWidth p) g data scales config in
          let g := addMilestones g scales config in
          let g := addDirectLabels g data scales config in
          {| innerWidth := innerWidth p;
             root := Some (svg |> child (with_children g new_group));
             container_html := container_html p;
             chartData := chartData p;
             chart_scales := Some scales;
             listeners := listeners p |}
      | _ =>
          {| innerWidth := innerWidth p; root := Some svg;
             container_html := container_html p; chartData := chartData p;
             chart_scales := chart_scales p; listeners := listeners p |}
      end
  end.

(** [makeResponsive]: registers the debounced [resizeChart], unless the
    page has no root. *)
Definition makeResponsive (p : page) : page :=
  match root p with
  | None => p
  | Some _ =>
      {| innerWidth := innerWidth p; root := root p;
         container_html := container_html p; chartData := chartData p;
         chart_scales := chart_scales p; listeners := S (listeners p) |}
  end.

(** The rows [initChart] keeps of what [d3.csv] delivered. *)
Definition process (rawData : list Row) : list Row :=
  List.filter
    (fun d =>
       instanceof_Date (date d) &&
       typeof_number (deaths_7d d) &&
       typeof_number (vaccinated_pct d) &&
       negb (isNaN (deaths_7d d)) &&
       negb (isNaN (vaccinated_pct d)) &&
       isFinite (deaths_7d d) &&
       isFinite (vaccinated_pct d))
    (map (fun d => {| date := timeParse_ymd (date d);
                      deaths_7d := plus (deaths_7d d);
                      vaccinated_pct := plus (vaccinated_pct d) |})
         rawData).

(** [initChart], given what the awaited [d3.csv] produced: [None] when the
    request failed, the parsed rows otherwise. *)
Definition initChart (p : page) (csv : option (list Row)) : page :=
  match csv with
  | None => show_error p
  | Some rawData =>
      let data := process rawData in
      let p := {| innerWidth := innerWidth p; root := root p;
                  container_html := container_html p; chartData := Some data;
                  chart_scales := chart_scales p; listeners := listeners p |} in
      if bool_decide (length data = O) then show_error p
      else
        let config := chart_size in
        let scales := buildScales data config in
        let g := drawAxes (innerWidth p) [] scales config in
        let g := drawLines (innerWidth p) g data scales config in
        let g := addMilestones g scales config in
        let g := addDirectLabels g data scales config in
        let chartSvg :=
          (fun svg => svg
             |> attr "viewBox" (AViewBox (ofZ 0) (ofZ 0) (cfg_width CHART_CONFIG)
                                         (cfg_height CHART_CONFIG))
             |> attr "preserveAspectRatio" (AStr "xMidYMid meet")
             |> child (with_children g new_group)) <$> root p in
        makeResponsive
          {| innerWidth := innerWidth p; root := chartSvg;
             container_html := container_html p; chartData := Some data;
             chart_scales := Some scales; listeners := listeners p |}
  end.

End WithNice.
End Chart.

(* ===================================================================== *)
(** ** chart.js, the revision with direct labels and comments             *)
(* ===================================================================== *)

Module ChartDirect.
Import JS D3 Utils Config Config.Direct Page.
Local Open Scope string_scope.
Local Open Scope list_scope.

(** The table [initChart] passes to [d3.timeFormatDefaultLocale]. *)
Definition es_locale : locale :=
  {| shortMonths := ["Ene"; "Feb"; "Mar"; "Abr"; "May"; "Jun";
                     "Jul"; "Ago"; "Sep"; "Oct"; "Nov"; "Dic"] |}.

(** The label the bottom axis writes at a tick, once that locale is set. *)
Definition tick_label (t : Z) : string := formatAxisDate es_locale t.

Section WithNice.
Variable nice : number * number → number * number.

Definition buildScales (data : list Row) (config : config) : scales :=
  {| xScale := scaleTime (extent (map date data)) (ofZ 0, width config);
     yLeftScale :=
       niced nice (scaleLinear (VNum (ofZ 0), max (map deaths_7d data))
                               (height config, ofZ 0));
     yRightScale :=
       scaleLinear (VNum (ofZ 0), VNum (ofZ 100)) (height config, ofZ 0) |}.

Definition drawAxes (w : number) (svg : list node) (scales : scales) (config : config)
  : list node :=
  let mobile := isMobile w BREAKPOINTS_mobile in
  let xAxis := Chart.new_axis Bottom (xScale scales)
                 |> Chart.with_ticks (getTickCount mobile)
                 |> Chart.with_tickFormat FormatAxisDate in
  let yLeftAxis := Chart.new_axis Left (yLeftScale scales) |> Chart.with_ticks 5 in
  let yRightAxis := Chart.new_axis Right (yRightScale scales)
                      |> Chart.with_ticks 4
                      |> Chart.with_tickFormat FormatPercentage
                      |> Chart.with_tickPadding 8 in
  let xAxisGroup := append "g"
        |> attr "class" (AStr "axis axis--x")
        |> attr "transform" (ATranslate (ofZ 0) (height config))
        |> attr "call" (ACall xAxis) in
  let yLeftAxisGroup := append "g"
        |> attr "class" (AStr "axis axis--left")
        |> attr "call" (ACall yLeftAxis) in
  let yRightAxisGroup := append "g"
        |> attr "class" (AStr "axis axis--right")
        |> attr "transform" (ATranslate (width config) (ofZ 0))
        |> attr "call" (ACall yRightAxis) in
  map (map_tree Chart.style_all_axes) svg ++
  [ Chart.style_all_axes xAxisGroup;
    Chart.style_all_axes yLeftAxisGroup
      |> Chart.part_style ".tick text/fill" COLORS_deaths
      |> Chart.part_style ".tick text/opacity" "0.7"
      |> Chart.part_style ".tick line/stroke" COLORS_deaths
      |> Chart.part_style ".tick line/opacity" "0.6";
    Chart.style_all_axes yRightAxisGroup
      |> Chart.part_style ".tick text/fill" COLORS_vaccination
      |> Chart.part_style ".tick text/opacity" "0.7"
      |> Chart.part_style ".tick line/stroke" COLORS_vaccination
      |> Chart.part_style ".tick line/opacity" "0.4" ].

Definition drawLines (w : number) (svg : list node) (data : list Row) (scales : scales)
    (config : config) : list node :=
  let mobile := isMobile w BREAKPOINTS_mobile in
  let deathsLine :=
    line (fun d => scale (xScale scales) (date d))
         (fun d => scale (yLeftScale scales) (deaths_7d d))
         (fun d => truthy (date d) && negb (isNaN (deaths_7d d)) && isFinite (deaths_7d d)) in
  let vaccinationLine :=
    line (fun d => scale (xScale scales) (date d))
         (fun d => scale (yRightScale scales) (vaccinated_pct d))
         (fun d => truthy (date d) && negb (isNaN (vaccinated_pct d))
                   && isFinite (vaccinated_pct d)) in
  let deathsStyle :=
    getResponsiveLineStyle LINE_STYLES_deaths LINE_STYLES_mobile_deaths mobile in
  svg ++
  [ append "path"
      |> attr "class" (AStr "line line--deaths")
      |> attr "fill" (AStr "none")
      |> attr "stroke" (AStr COLORS_deaths)
      |> attr_opt "stroke-width" (ANum <$> deathsStyle !! "strokeWidth")
      |> attr_opt "stroke-opacity" (ANum <$> deathsStyle !! "strokeOpacity")
      |> attr_opt "d" (Chart.path_d (deathsLine data));
    append "path"
      |> attr "class" (AStr "line line--vaccination")
      |> attr "fill" (AStr "none")
      |> attr "stroke" (AStr COLORS_vaccination)
      |> attr_opt "stroke-width" (ANum <$> LINE_STYLES_vaccination !! "strokeWidth")
      |> attr_opt "stroke-opacity" (ANum <$> LINE_STYLES_vaccination !! "strokeOpacity")
      |> attr_opt "d" (Chart.path_d (vaccinationLine data)) ].

Definition milestone_text (y : number) (s : string) : node :=
  append "text"
    |> attr "class" (AStr "milestone-text")
    |> attr "x" (ANum (ofZ 0))
    |> attr "y" (ANum y)
    |> attr "text-anchor" (AStr "middle")
    |> style "font-size" "11px"
    |> style "fill" "#666"
    |> style "font-weight" "500"
    |> text s.

Definition index_times (i : nat) (k : Z) : number := ofZ (Z.of_nat i * k).

Definition addMilestone (scales : scales) (config : config) (svg : list node)
    (milestone : milestone) : list node :=
  let milestoneDate := timeParse_ymd (VStr (m_date milestone)) in
  let x := scale (xScale scales) milestoneDate in
  if ge x (ofZ 0) && le x (width config) then
    let svg := svg ++
      [ append "line"
          |> attr "class" (AStr ("milestone milestone--" ++ m_style milestone)%string)
          |> attr "x1" (ANum x)
          |> attr "x2" (ANum x)
          |> attr "y1" (ANum (ofZ 0))
          |> attr "y2" (ANum (height config))
          |> attr_opt "stroke" (AStr <$> COLORS_milestone !! m_style milestone)
          |> attr "stroke-width" (ANum (strokeWidth milestone))
          |> attr "stroke-dasharray" (AStr (dashArray milestone))
          |> attr "stroke-opacity" (ANum (dec 4 1)) ] in
    let labelGroup := append "g"
          |> attr "class" (AStr "milestone-label")
          |> attr "transform" (ATranslate x (yOffset milestone)) in
    let labelGroup :=
      match m_label milestone with
      | Lines ls =>
          fold_left (fun g t => child t g)
                    (imap (fun index line => milestone_text (index_times index 12) line) ls)
                    labelGroup
      | Single s => labelGroup |> child (milestone_text (ofZ 0) s)
      end in
    let arrowYStart :=
      match m_label milestone with
      | Lines ls => ofZ (Z.of_nat (length ls) * 12 + 3)
      | Single _ => ofZ 8
      end in
    let labelGroup := labelGroup
          |> child (append "line"
                      |> attr "x1" (ANum (ofZ 0))
                      |> attr "y1" (ANum arrowYStart)
                      |> attr "x2" (ANum (ofZ 0))
                      |> attr "y2" (ANum (add arrowYStart (ofZ 10)))
                      |> attr "stroke" (AStr "#666")
                      |> attr "stroke-width" (ANum (ofZ 1))
                      |> attr "marker-end" (AStr "url(#milestone-arrow)")) in
    let svg := svg ++ [labelGroup] in
    if select_empty (has_id "milestone-arrow") svg
    then select_append (has_tag "defs") Chart.milestone_arrow svg
    else svg
  else svg.

Definition addMilestones (svg : list node) (scales : scales) (config : config)
  : list node :=
  let svg := if select_empty (has_tag "defs") svg then svg ++ [append "defs"] else svg in
  fold_left (addMilestone scales config) MILESTONES svg.

Definition addDirectLabels (svg : list node) (data : list Row) (scales : scales)
    (config : config) : list node :=
  if bool_decide (length data = O) then svg else
  let svg := svg ++
    [ append "text"
        |> attr "class" (AStr "source-footnote")
        |> attr "x" (ANum (ofZ 0))
        |> attr "y" (ANum (add (height config) (ofZ 35)))
        |> style "font-size" "10px"
        |> style "fill" "#777"
        |> text "Fuente: MinCiencia y MINSAL." ] in
  match last data with
  | Some lastDataPoint =>
      let labelX := sub (width config) (ofZ 5) in
      let deathsY := scale (yLeftScale scales) (deaths_7d lastDataPoint) in
      let vaccinationY := scale (yRightScale scales) (vaccinated_pct lastDataPoint) in
      svg ++
      [ append "g"
          |> attr "class" (AStr "direct-label deaths-label")
          |> child (append "text"
                      |> attr "x" (ANum labelX)
                      |> attr "y" (ANum (sub deathsY (ofZ 35)))
                      |> attr "fill" (AStr COLORS_deaths)
                      |> attr "text-anchor" (AStr "end")
                      |> style "font-size" "12px"
                      |> style "font-weight" "500"
                      |> text labels_deaths);
        append "g"
          |> attr "class" (AStr "direct-label vaccination-label")
          |> child (append "text"
                      |> attr "x" (ANum labelX)
                      |> attr "y" (ANum (sub vaccinationY (ofZ 5)))
                      |> attr "fill" (AStr COLORS_vaccination)
                      |> attr "text-anchor" (AStr "end")
                      |> style "font-size" "12px"
                      |> style "font-weight" "500"
                      |> text labels_vaccination) ]
  | None => svg
  end.

(** The time value a format function reads from its argument: that of a
    Date, or of [new Date(+date)]. *)
Definition to_time (v : value) : option Z :=
  match v with
  | VDate t => Some t
  | _ => match ToNumber v with
         | Fin q => Some (Z.quot (Qnum (this q)) (Zpos (Qden (this q))))
         | _ => None
         end
  end.

Definition arrowhead : node :=
  append "marker"
    |> attr "id" (AStr "arrowhead")
    |> attr "markerWidth" (ANum (ofZ 6))
    |> attr "markerHeight" (ANum (ofZ 4))
    |> attr "refX" (ANum (ofZ 5))
    |> attr "refY" (ANum (ofZ 2))
    |> attr "orient" (AStr "auto")
    |> child (append "polygon"
                |> attr "points" (AStr "0 0, 6 2, 0 4")
                |> attr "fill" (AStr "#666")).

Definition omicron_text (x y : number) (s : string) : node :=
  append "text"
    |> attr "x" (ANum x)
    |> attr "y" (ANum y)
    |> attr "fill" (AStr "#888")
    |> attr "font-size" (AStr "10px")
    |> attr "font-weight" (AStr "400")
    |> attr "text-anchor" (AStr "start")
    |> text s.

Definition or_zero (n : option number) : number :=
  match n with
  | Some n => if truthy (VNum n) then n else ofZ 0
  | None => ofZ 0
  end.

(** The body of the [forEach] over the comments: no test on [x]. *)
Definition addComment (scales : scales) (svg : list node) (c : comment) : list node :=
  let parse := fun s => timeParse_ymd (VStr s) in
  let x :=
    match c_date c with
    | Some d =>
        if truthy (VStr d) then scale (xScale scales) (parse d)
        else match c_dateRange c with
             | Some [a; b] =>
                 div (add (scale (xScale scales) (parse a)) (scale (xScale scales) (parse b)))
                     (ofZ 2)
             | _ => NaN
             end
    | None =>
        match c_dateRange c with
        | Some [a; b] =>
            div (add (scale (xScale scales) (parse a)) (scale (xScale scales) (parse b)))
                (ofZ 2)
        | _ => NaN
        end
    end in
  let yScale := if bool_decide (c_yType c = "right") then yRightScale scales
                else yLeftScale scales in
  let y := scale yScale (VNum (c_yValue c)) in
  let g := append "g" |> attr "class" (AStr ("comment comment--" ++ c_id c)%string) in
  let lines := match c_text c with Lines ls => ls | Single s => [s] end in
  let xText := add x (or_zero (c_dx c)) in
  let yText := add y (or_zero (c_dy c)) in
  let anchor := match c_anchor c with
                | Some a => if truthy (VStr a) then a else "start"
                | None => "start"
                end in
  svg ++
  [ fold_left (fun g t => child t g)
      (imap (fun i line =>
               append "text"
                 |> attr "x" (ANum xText)
                 |> attr "y" (ANum (add yText (index_times i 12)))
                 |> attr "text-anchor" (AStr anchor)
                 |> attr "font-size" (AStr "9px")
                 |> attr "fill" (AStr "#888")
                 |> attr "opacity" (ANum (dec 7 1))
                 |> text line) lines)
      g ].

Definition addAnnotations (svg : list node) (data : list Row) (scales : scales)
    (config : config) : list node :=
  let svg := if select_empty (has_id "arrowhead") svg
             then select_append (has_tag "defs") arrowhead svg else svg in
  let omicronDate := timeParse_ymd (VStr omicronAnnotation_date) in
  let omicronX := scale (xScale scales) omicronDate in
  let omicronData :=
    find (fun d => match to_time (date d) with
                   | Some t => bool_decide (timeFormat es_locale "%Y-%m-%d" t
                                            = omicronAnnotation_date)
                   | None => false
                   end) data in
  let omicronDeathsY :=
    match omicronData with
    | Some d => scale (yLeftScale scales) (deaths_7d d)
    | None => mul (height config) (dec 3 1)
    end in
  let omicronY := sub omicronDeathsY (ofZ 3) in
  let omicronGroup := append "g"
        |> attr "class" (AStr "omicron-annotation")
        |> attr "opacity" (ANum (dec 6 1)) in
  let omicronGroup :=
    match omicronAnnotation_text with
    | Lines ls =>
        fold_left (fun g t => child t g)
          (imap (fun index line =>
                   omicron_text (add omicronX (ofZ 35))
                                (add omicronY (index_times index 12)) line) ls)
          omicronGroup
    | Single s =>
        omicronGroup |> child (omicron_text (add omicronX (ofZ 35)) omicronY s)
    end in
  let arrowY := omicronDeathsY in
  let omicronGroup := omicronGroup
        |> child (append "line"
                    |> attr "x1" (ANum (add omicronX (ofZ 35)))
                    |> attr "y1" (ANum arrowY)
                    |> attr "x2" (ANum omicronX)
                    |> attr "y2" (ANum arrowY)
                    |> attr "stroke" (AStr "#888")
                    |> attr "stroke-width" (ANum (ofZ 1))
                    |> attr "marker-end" (AStr "url(#arrowhead)")) in
  fold_left (addComment scales) COMMENTS (svg ++ [omicronGroup]).

Definition resizeChart (p : page) : page :=
  match root p with
  | None => p
  | Some svg =>
      let svg := Chart.with_children [] svg in
      match chartData p with
      | Some ((_ :: _) as data) =>
          let config := Chart.chart_size in
          let scales := buildScales data config in
          let g := drawAxes (innerWidth p) [] scales config in
          let g := drawLines (innerWidth p) g data scales config in
          let g := addMilestones g scales config in
          let g := addDirectLabels g data scales config in
          let g := addAnnotations g data scales config in
          {| innerWidth := innerWidth p;
             root := Some (svg |> child (Chart.with_children g Chart.new_group));
             container_html := container_html p;
             chartData := chartData p;
             chart_scales := Some scales;
             listeners := listeners p |}
      | _ =>
          {| innerWidth := innerWidth p; root := Some svg;
             container_html := container_html p; chartData := chartData p;
             chart_scales := chart_scales p; listeners := listeners p |}
      end
  end.

Definition process (rawData : list Row) : list Row :=
  List.filter
    (fun d =>
       instanceof_Date (date d) &&
       typeof_number (deaths_7d d) &&
       typeof_number (vaccinated_pct d) &&
       negb (isNaN (deaths_7d d)) &&
       negb (isNaN (vaccinated_pct d)) &&
       isFinite (deaths_7d d) &&
       isFinite (vaccinated_pct d))
    (map (fun d => {| date := timeParse_ymd (date d);
                      deaths_7d := plus (deaths_7d d);
                      vaccinated_pct := plus (vaccinated_pct d) |})
         rawData).

Definition initChart (p : page) (csv : option (list Row)) : page :=
  match csv with
  | None => show_error p
  | Some rawData =>
      let data := process rawData in
      let p := {| innerWidth := innerWidth p; root := root p;
                  container_html := container_html p; chartData := Some data;
                  chart_scales := chart_scales p; listeners := listeners p |} in
      if bool_decide (length data = O) then show_error p
      else
        let config := Chart.chart_size in
        let scales := buildScales data config in
        let g := drawAxes (innerWidth p) [] scales config in
        let g := drawLines (innerWidth p) g data scales config in
        let g := addMilestones g scales config in
        let g := addDirectLabels g data scales config in
        let g := addAnnotations g data scales config in
        let chartSvg :=
          (fun svg => svg
             |> attr "viewBox" (AViewBox (ofZ 0) (ofZ 0) (cfg_width CHART_CONFIG)
                                         (cfg_height CHART_CONFIG))
             |> attr "preserveAspectRatio" (AStr "xMidYMid meet")
             |> child (Chart.with_children g Chart.new_group)) <$> root p in
        Chart.makeResponsive
          {| innerWidth := innerWidth p; root := chartSvg;
             container_html := container_html p; chartData := Some data;
             chart_scales := Some scales; listeners := listeners p |}
  end.

End WithNice.
End ChartDirect.

(* ===================================================================== *)
(** ** Properties                                                         *)
(* ===================================================================== *)

Import JS D3 Utils Page.

(** *** Inputs used in examples *)

Definition identity_nice (d : number * number) : number * number := d.

Definition chart_root : node := El "svg" [("id", AStr "chart-root")] [].

(** A page before [initChart] ran, at a given window width. *)
Definition blank_page (w : number) (svg : node) : page :=
  {| innerWidth := w; root := Some (Chart.with_children [] svg);
     container_html := None; chartData := None; chart_scales := None;
     listeners := O |}.

Definition header_only_csv : string := "date,deaths_7d,vaccinated_pct
".

Definition gap_csv : string := "date,deaths_7d,vaccinated_pct
2020-12-24,,0.1
2020-12-25,,0.2
2020-12-26,,0.4
2020-12-27,,0.7
2020-12-28,,1.2
2020-12-29,,2.1
2020-12-30,,3.8
2020-12-31,,6.2
2021-01-01,10,10.13
".

Definition out_of_range_csv : string := "date,deaths_7d,vaccinated_pct
2021-01-01,-5,150
".

Definition unordered_csv : string := "date,deaths_7d,vaccinated_pct
2021-01-02,1,1
2021-01-01,2,2
2021-01-01,3,3
".

(** *** Vocabulary of the statements *)

(** A row as the loader keeps it: a Date and two finite numbers. *)
Definition loaded_row (r : Row) : Prop :=
  ∃ t q1 q2, date r = VDate t ∧ deaths_7d r = VNum (Fin q1)
             ∧ vaccinated_pct r = VNum (Fin q2).

(** Row [a] comes before row [b] of the file by date, when both dates parse. *)
Definition raw_before (a b : Row) : Prop :=
  ∀ ta tb, timeParse_ymd (date a) = VDate ta → timeParse_ymd (date b) = VDate tb → ta < tb.

Definition date_before (a b : Row) : Prop :=
  ∃ ta tb, date a = VDate ta ∧ date b = VDate tb ∧ ta < tb.

Definition convert (d : Row) : Row :=
  {| date := timeParse_ymd (date d);
     deaths_7d := plus (deaths_7d d);
     vaccinated_pct := plus (vaccinated_pct d) |}.

Definition one_run {A} (l : list A) : list (list A) :=
  match l with [] => [] | _ => [l] end.

(** What a drawing shows: the tick count asked of an axis (the argument
    its generator was given, not the ticks D3 then draws), and the stroke
    width of a line, each found by its class. *)
Definition axis_ticks (cls : string) (svg : list node) : option Z :=
  e ← find (has_class cls) svg;
  match get_attr "call" e with
  | Some (ACall a) => Some (ticks a)
  | _ => None
  end.

Definition stroke_width (cls : string) (svg : list node) : option number :=
  e ← find (has_class cls) svg;
  match get_attr "stroke-width" e with
  | Some (ANum n) => Some n
  | _ => None
  end.

Definition stroke_opacity (cls : string) (svg : list node) : option number :=
  e ← find (has_class cls) svg;
  match get_attr "stroke-opacity" e with
  | Some (ANum n) => Some n
  | _ => None
  end.

(** The guard of [addMilestones], as a predicate on the milestone. *)
Definition milestone_visible (sc : scales) (cfg : config) (m : Config.milestone) : bool :=
  let x := scale (xScale sc) (timeParse_ymd (VStr (Config.m_date m))) in
  ge x (ofZ 0) && le x (width cfg).

(** Vocabulary for runs of the debounced function. *)
Section DebounceRuns.
Context {A W : Type}.
Variable wait : Z.

(** A burst: calls in time order, each less than [wait] after the one
    before. *)
Fixpoint burst (prev : Z) (calls : list (Z * A)) : Prop :=
  match calls with
  | [] => True
  | (t, _) :: rest => prev ≤ t ∧ t < prev + wait ∧ burst t rest
  end.

(** One timer is pending: the one the closure's variable names, set by the
    call at time [t] with arguments [a]. *)
Definition armed (t : Z) (a : A) (w : W) (s : loop (A:=A) (W:=W)) : Prop :=
  ∃ id, timeout s = Some id ∧ pending s = {[ id := (t + Z.max 0 wait, a) ]}
        ∧ world s = w.

End DebounceRuns.

(** A row is defined for a series when its date is truthy and the series'
    value is a number other than NaN and the infinities. *)
Definition defined_for (f : Row → value) (d : Row) : bool :=
  truthy (date d) && negb (isNaN (f d)) && isFinite (f d).

(** The point a row gives to each line. *)
Definition deaths_point (sc : scales) (d : Row) : number * number :=
  (scale (xScale sc) (date d), scale (yLeftScale sc) (deaths_7d d)).

Definition vaccination_point (sc : scales) (d : Row) : number * number :=
  (scale (xScale sc) (date d), scale (yRightScale sc) (vaccinated_pct d)).

(** More vocabulary for runs of the debounced function. *)
Section DebounceRuns2.
Context {A W : Type}.
Variable wait : Z.

(** No timer is pending, or one is and the closure's variable names it. *)
Definition at_most_one_timer (s : loop (A:=A) (W:=W)) : Prop :=
  pending s = ∅
  ∨ ∃ id d a, timeout s = Some id ∧ pending s = {[ id := (d, a) ]}.

(** Calls spaced out: each at least the delay after the one before. *)
Fixpoint spaced (prev : Z) (calls : list (Z * A)) : Prop :=
  match calls with
  | [] => True
  | (t, _) :: rest => prev + Z.max 0 wait ≤ t ∧ spaced t rest
  end.

End DebounceRuns2.

(** *** What the loader's filter guarantees *)

Lemma finite_number v :
  typeof_number v = true → isFinite v = true → ∃ q, v = VNum (Fin q).
Proof.
  destruct v as [| |n| |]; simpl; try discriminate.
  intros _. unfold isFinite; simpl. destruct n; try discriminate. eauto.
Qed.

Lemma date_instance v : instanceof_Date v = true → ∃ t, v = VDate t.
Proof. destruct v; simpl; try discriminate. eauto. Qed.

Lemma process_loaded rawData : Forall loaded_row (Chart.process rawData).
Proof.
  apply List.Forall_forall. intros r Hr.
  apply filter_In in Hr as [_ Hr].
  repeat (apply andb_prop in Hr as [Hr ?]).
  destruct (date_instance _ Hr) as [t Ht].
  destruct (finite_number (deaths_7d r)) as [q1 Hq1]; auto.
  destruct (finite_number (vaccinated_pct r)) as [q2 Hq2]; auto.
  exists t, q1, q2. auto.
Qed.

Lemma loaded_row_valid r :
  loaded_row r →
  instanceof_Date (date r) && typeof_number (deaths_7d r)
  && typeof_number (vaccinated_pct r) && negb (isNaN (deaths_7d r))
  && negb (isNaN (vaccinated_pct r)) && isFinite (deaths_7d r)
  && isFinite (vaccinated_pct r) = true.
Proof. intros (t & q1 & q2 & -> & -> & ->). reflexivity. Qed.

(** C4 fails as stated: a row with negative deaths and a percentage above
    100 is loaded as it is. *)
Lemma C4_range_not_checked :
  ∃ t, Chart.process (csvParse out_of_range_csv)
       = [ {| date := VDate t; deaths_7d := VNum (ofZ (-5));
              vaccinated_pct := VNum (ofZ 150) |} ]
       ∧ lt (ofZ (-5)) (ofZ 0) = true ∧ gt (ofZ 150) (ofZ 100) = true.
Proof. eexists. split; [vm_compute; reflexivity | split; reflexivity]. Qed.

(** C4, amended: in every row of the loaded sequence, whatever the input,
    the date is a Date object and [deaths_7d] and [vaccinated_pct] are finite
    numbers; neither their sign nor the range 0 to 100 is checked. *)
Theorem C4_loaded_rows_finite (rawData : list Row) :
  Forall loaded_row (Chart.process rawData)
  ∧ Forall loaded_row (ChartDirect.process rawData).
Proof. split; apply process_loaded. Qed.

(** C10: when loading succeeds (some row passes the filter), the sequence
    in memory satisfies [validateData]. *)
Theorem C10_loaded_data_validates (rawData : list Row) :
  Chart.process rawData ≠ [] → validateData (Chart.process rawData) = true.
Proof.
  intros Hne. unfold validateData.
  destruct (Chart.process rawData) as [|r l] eqn:E; [congruence|].
  rewrite bool_decide_eq_false_2 by (simpl; lia).
  apply forallb_forall. intros x Hx.
  apply loaded_row_valid.
  pose proof (process_loaded rawData) as HF. rewrite E in HF.
  eapply List.Forall_forall in HF; eauto.
Qed.

Lemma C10_loaded_data_validates_witness :
  validateData (Chart.process (csvParse gap_csv)) = true.
Proof. apply C10_loaded_data_validates. vm_compute. discriminate. Defined.

(** *** Order of the loaded rows *)

Lemma process_cons d rawData :
  Chart.process (d :: rawData) = Chart.process rawData
  ∨ Chart.process (d :: rawData) = convert d :: Chart.process rawData
    ∧ loaded_row (convert d).
Proof.
  pose proof (process_loaded (d :: rawData)) as HF.
  unfold Chart.process in *. simpl in *. fold (convert d) in *.
  match goal with |- context [if ?c then _ else _] => destruct c end; auto.
  right. split; auto. by inversion HF.
Qed.

Lemma process_from_raw rawData r :
  In r (Chart.process rawData) → ∃ d, In d rawData ∧ r = convert d.
Proof.
  unfold Chart.process. intros H. apply filter_In in H as [H _].
  apply in_map_iff in H as (d & <- & Hd). eauto.
Qed.

(** C5 fails as stated: rows out of order and a repeated date stay as the
    file has them. *)
Lemma C5_not_sorted_not_unique :
  ∃ t1 t2, map date (Chart.process (csvParse unordered_csv))
           = [VDate t2; VDate t1; VDate t1] ∧ t1 < t2.
Proof. do 2 eexists. split; [vm_compute; reflexivity | reflexivity]. Qed.

(** C5, amended: the loader keeps the valid rows in the order of the file,
    without sorting or removing repeated dates; the loaded sequence is
    strictly ascending by date whenever the rows of the file are. *)
Theorem C5_file_order_kept (rawData : list Row) :
  StronglySorted raw_before rawData →
  StronglySorted date_before (Chart.process rawData).
Proof.
  induction 1 as [|d l Hl IH Hd].
  - constructor.
  - destruct (process_cons d l) as [-> | [-> (t & q1 & q2 & Ht & _)]]; [exact IH|].
    constructor; [exact IH|].
    apply List.Forall_forall. intros r Hr.
    pose proof (process_loaded l) as HF.
    eapply List.Forall_forall in HF as (t' & _ & _ & Ht' & _); [|exact Hr].
    apply process_from_raw in Hr as (d' & Hin & ->).
    exists t, t'. repeat split; auto.
    eapply List.Forall_forall in Hd; [|exact Hin].
    apply Hd; assumption.
Qed.

Lemma C5_file_order_kept_witness :
  StronglySorted date_before (Chart.process (csvParse gap_csv)).
Proof.
  apply C5_file_order_kept.
  let l := eval vm_compute in (csvParse gap_csv) in
  change (csvParse gap_csv) with l.
  repeat (constructor;
          [| repeat (constructor;
                     [intros ta tb Ha Hb; vm_compute in Ha, Hb;
                      inversion Ha; inversion Hb; reflexivity|]);
             constructor]).
  constructor.
Defined.

(** *** Failure of the load *)

(** C2: on a page showing no message yet, [initChart] shows the fallback
    message exactly when no row passes the filter (as for a header-only
    file); then nothing is added under the root and no listener is
    registered; otherwise the filtered rows are kept in memory, no message
    is shown and a group of drawn elements is added under the root. *)
Theorem C2_fails_iff_no_valid_row (nice : number * number → number * number)
    (p : page) (rawData : list Row) :
  container_html p = None →
  let p' := Chart.initChart nice p (Some rawData) in
  (container_html p' = Some error_message ↔ Chart.process rawData = [])
  ∧ (Chart.process rawData = [] →
     root p' = root p ∧ listeners p' = listeners p)
  ∧ (Chart.process rawData ≠ [] →
     chartData p' = Some (Chart.process rawData)
     ∧ container_html p' = None
     ∧ ∀ svg, root p = Some svg →
         ∃ g, drawn p' = children svg ++ [g] ∧ (3 < length (children g))%nat)
  ∧ Chart.process (csvParse header_only_csv) = [].
Proof.
  intros Hc p'. subst p'. unfold Chart.initChart.
  destruct (Chart.process rawData) as [|r l] eqn:E.
  - rewrite bool_decide_eq_true_2 by reflexivity. simpl.
    repeat split; try congruence; try reflexivity.
  - rewrite bool_decide_eq_false_2 by (simpl; lia).
    split; [|split; [congruence|split; [|reflexivity]]].
    + unfold Chart.makeResponsive. simpl.
      destruct (root p); simpl; rewrite Hc; split; congruence.
    + intros _. unfold Chart.makeResponsive. simpl.
      destruct (root p) as [svg|] eqn:R; simpl; rewrite ?Hc;
        (split; [reflexivity|split; [reflexivity|]]); [|discriminate].
      intros svg' [= <-]. unfold drawn. simpl.
      destruct svg as [t a cs]. simpl. eexists. split; [reflexivity|].
      simpl. unfold Chart.addDirectLabels.
      rewrite bool_decide_eq_false_2 by (simpl; lia).
      rewrite length_app. simpl.
      unfold Chart.addMilestones.
      match goal with |- context [fold_left ?f ?l ?a] =>
        assert (Hlen : ∀ ms s, (length s <= length (fold_left f ms s))%nat)
      end.
      { induction ms as [|m ms IH]; intros s; simpl; [lia|].
        etransitivity; [|apply IH].
        unfold Chart.addMilestone.
        match goal with |- context [if ?c then _ else _] => destruct c end; [|lia].
        match goal with |- context [if ?c then _ else _] => destruct c end.
        - match goal with |- context [select_append ?q ?n _] =>
            assert (Hs : ∀ xs, length (select_append q n xs) = length xs)
          end.
          { induction xs as [|e xs IHx]; simpl; [reflexivity|].
            destruct (append_first _ _ e); simpl; congruence. }
          rewrite Hs, !length_app. simpl. lia.
        - rewrite !length_app. simpl. lia. }
      match goal with |- context [fold_left ?f ?l ?a] =>
        pose proof (Hlen l a) as Hl
      end.
      match type of Hl with (length ?a <= _)%nat =>
        assert (3 <= length a)%nat as Ha
      end.
      { match goal with |- context [if ?c then _ else _] => destruct c end;
          rewrite ?length_app; unfold Chart.drawLines, Chart.drawAxes;
          rewrite ?length_app; simpl; lia. }
      lia.
Qed.

Lemma C2_fails_iff_no_valid_row_witness :
  container_html (Chart.initChart identity_nice (blank_page (ofZ 1024) chart_root)
                    (Some (csvParse header_only_csv)))
  = Some error_message.
Proof.
  apply (C2_fails_iff_no_valid_row identity_nice (blank_page (ofZ 1024) chart_root)
           (csvParse header_only_csv)); reflexivity.
Defined.

(** *** Tick labels *)

(** C7 fails as stated: the label is not in lower case. *)
Lemma C7_label_is_capitalised :
  ∃ t, timeParse_ymd (VStr "2021-02-03") = VDate t
       ∧ ChartDirect.tick_label t ≠ "feb 2021"%string.
Proof. eexists. split; [vm_compute; reflexivity | vm_compute; discriminate]. Qed.

(** C7, amended: formatting the date 2021-02-03 through the axis date
    formatter yields [Feb 2021], under the Spanish table [initChart] installs
    (whose short month names are capitalised) as under D3's default locale. *)
Theorem C7_axis_label_Feb_2021 :
  ∃ t, timeParse_ymd (VStr "2021-02-03") = VDate t
       ∧ ChartDirect.tick_label t = "Feb 2021"%string
       ∧ formatAxisDate en_US t = "Feb 2021"%string.
Proof. eexists. split; [vm_compute; reflexivity | split; vm_compute; reflexivity]. Qed.

(** *** Lines *)

Lemma find_set_assoc {V} (k : string) (v : V) (l : list (string * V)) :
  find (fun p => bool_decide (p.1 = k)) (set_assoc k v l) = Some (k, v).
Proof.
  induction l as [|[k' v'] l IH]; simpl.
  - by rewrite bool_decide_eq_true_2.
  - destruct (bool_decide (k' = k)) eqn:E; simpl.
    + by rewrite bool_decide_eq_true_2.
    + by rewrite E.
Qed.

Lemma find_set_assoc_ne {V} (k k' : string) (v : V) (l : list (string * V)) :
  k ≠ k' →
  find (fun p => bool_decide (p.1 = k')) (set_assoc k v l)
  = find (fun p => bool_decide (p.1 = k')) l.
Proof.
  intros Hne. induction l as [|[k1 v1] l IH]; simpl.
  - by rewrite bool_decide_eq_false_2.
  - destruct (bool_decide (k1 = k)) eqn:E; simpl.
    + apply bool_decide_eq_true_1 in E as ->.
      by rewrite !bool_decide_eq_false_2.
    + by rewrite IH.
Qed.

Lemma get_attr_attr k v e : get_attr k (attr k v e) = Some v.
Proof. destruct e. unfold get_attr. simpl. by rewrite find_set_assoc. Qed.

Lemma get_attr_attr_ne k k' v e : k ≠ k' → get_attr k' (attr k v e) = get_attr k' e.
Proof. intros. destruct e. unfold get_attr. simpl. by rewrite find_set_assoc_ne. Qed.

Lemma get_attr_remove k e : get_attr k (remove_attr k e) = None.
Proof.
  destruct e as [t a c]. unfold get_attr. simpl.
  induction a as [|[k' v'] a IH]; simpl; [done|].
  destruct (bool_decide (k' = k)) eqn:E; simpl; [done|]. by rewrite E.
Qed.

Lemma get_attr_remove_ne k k' e : k ≠ k' → get_attr k' (remove_attr k e) = get_attr k' e.
Proof.
  intros Hne. destruct e as [t a c]. unfold get_attr. simpl.
  induction a as [|[k1 v1] a IH]; simpl; [done|].
  destruct (bool_decide (k1 = k)) eqn:E; simpl.
  - apply bool_decide_eq_true_1 in E as ->. by rewrite bool_decide_eq_false_2.
  - destruct (bool_decide (k1 = k')); [done|]. exact IH.
Qed.

Lemma get_attr_attr_opt k v e : get_attr k (attr_opt k v e) = v.
Proof. destruct v; simpl; [apply get_attr_attr | apply get_attr_remove]. Qed.

Lemma get_attr_attr_opt_ne k k' v e :
  k ≠ k' → get_attr k' (attr_opt k v e) = get_attr k' e.
Proof.
  destruct v; simpl; [apply get_attr_attr_ne | apply get_attr_remove_ne].
Qed.

(** When every point is defined the line is one run (none without points). *)
Lemma segments_all_defined {A} (defined : A → bool) (l cur : list A) :
  forallb defined l = true →
  segments defined cur l = match rev cur ++ l with [] => [] | run => [run] end.
Proof.
  revert cur. induction l as [|d l IH]; intros cur H; simpl.
  - rewrite app_nil_r. destruct cur as [|c cur]; [done|].
    simpl. destruct (rev cur ++ [c]) eqn:E; [|done].
    by apply app_eq_nil in E as [_ ?].
  - simpl in H. apply andb_prop in H as [Hd Hl]. rewrite Hd, IH by done.
    simpl. by rewrite <- app_assoc.
Qed.

Lemma line_all_defined {A} (x y : A → number) defined (data : list A) :
  forallb defined data = true →
  line x y defined data = one_run (map (fun d => (x d, y d)) data).
Proof.
  intros H. unfold line. rewrite segments_all_defined by done. simpl.
  by destruct data.
Qed.

(** C1 fails as stated: in the scenario the deaths line is one run of nine
    points, the first of them at the date of a blank field, drawn at the
    foot of the chart (value 0). *)
Lemma C1_deaths_line_not_broken :
  let data := Chart.process (csvParse gap_csv) in
  let sc := Chart.buildScales identity_nice data Chart.chart_size in
  ∃ p1 p2 run x y,
    Chart.drawLines (ofZ 1024) [] data sc Chart.chart_size = [p1; p2]
    ∧ get_attr "d" p1 = Some (APath [run])
    ∧ length run = 9%nat
    ∧ head run = Some (x, y)
    ∧ eq x (ofZ 0) = true
    ∧ eq y (height Chart.chart_size) = true.
Proof.
  do 5 eexists. split; [vm_compute; reflexivity|].
  split; [vm_compute; reflexivity|].
  split; [reflexivity|]. split; [reflexivity|].
  split; vm_compute; reflexivity.
Qed.

(** C1, amended: every row the loader keeps has a Date and finite
    [deaths_7d] and [vaccinated_pct], a row that does not being dropped from
    both series rather than kept for one of them; over the loaded rows each
    line is drawn as a single run with one point per row, so the vaccination
    line is continuous over them and the deaths line has no break. *)
Theorem C1_loaded_rows_one_run_per_line (w : number) (rawData : list Row)
    (sc : scales) (cfg : config) :
  let data := Chart.process rawData in
  Forall loaded_row data
  ∧ (∀ d, In d rawData → ¬ loaded_row (convert d) → ¬ In (convert d) data)
  ∧ ∃ p1 p2,
      Chart.drawLines w [] data sc cfg = [p1; p2]
      ∧ get_attr "d" p1
        = Chart.path_d (one_run (map (fun d => (scale (xScale sc) (date d),
                                                scale (yLeftScale sc) (deaths_7d d)))
                                     data))
      ∧ get_attr "d" p2
        = Chart.path_d (one_run (map (fun d => (scale (xScale sc) (date d),
                                                scale (yRightScale sc) (vaccinated_pct d)))
                                     data)).
Proof.
  intros data. pose proof (process_loaded rawData) as HF. fold data in HF.
  split; [exact HF|]. split.
  - intros d _ Hbad Hin. apply Hbad.
    eapply List.Forall_forall in HF; eauto.
  - assert (Hdef : ∀ (f : Row → value),
               (∀ r, loaded_row r → ∃ q, f r = VNum (Fin q)) →
               forallb (fun d => truthy (date d) && negb (isNaN (f d)) && isFinite (f d))
                       data = true).
    { intros f Hf. apply forallb_forall. intros r Hr.
      eapply List.Forall_forall in HF; [|exact Hr].
      destruct (Hf r HF) as [q Hq]. destruct HF as (t & _ & _ & -> & _).
      rewrite Hq. reflexivity. }
    do 2 eexists. split; [reflexivity|].
    split; rewrite get_attr_attr_opt; f_equal; apply line_all_defined.
    + apply (Hdef deaths_7d). intros r (t & q1 & q2 & _ & -> & _). eauto.
    + apply (Hdef vaccinated_pct). intros r (t & q1 & q2 & _ & _ & ->). eauto.
Qed.

(** *** Responsive styling *)

Lemma find_first {A} (f : A → bool) x l : f x = true → find f (x :: l) = Some x.
Proof. intros H. simpl. by rewrite H. Qed.

Lemma find_skip {A} (f : A → bool) x l : f x = false → find f (x :: l) = find f l.
Proof. intros H. simpl. by rewrite H. Qed.

Ltac attr_simpl :=
  repeat first
    [ rewrite get_attr_attr_opt
    | rewrite get_attr_attr
    | rewrite get_attr_attr_opt_ne by discriminate
    | rewrite get_attr_attr_ne by discriminate ].

(** Decide whether an element built by a chain of [attr] calls has a class. *)
Ltac class_check := unfold has_class; attr_simpl; vm_compute; reflexivity.

Lemma lt_le a b : lt a b = true → le a b = true.
Proof.
  destruct a, b; simpl; try done.
  unfold Qc_ltb, Qc_leb. intros H%bool_decide_eq_true_1.
  apply bool_decide_eq_true_2. by apply Qclt_le_weak.
Qed.

(** C6 fails as stated for the vaccination line: below the breakpoint its
    stroke width is what it is above it. *)
Lemma C6_vaccination_stroke_not_reduced :
  let data := Chart.process (csvParse gap_csv) in
  let sc := Chart.buildScales identity_nice data Chart.chart_size in
  isMobile (ofZ 1024) Config.BREAKPOINTS_mobile = false
  ∧ isMobile (ofZ 400) Config.BREAKPOINTS_mobile = true
  ∧ stroke_width "line--vaccination"
      (Chart.drawLines (ofZ 1024) [] data sc Chart.chart_size) = Some (dec 18 1)
  ∧ stroke_width "line--vaccination"
      (Chart.drawLines (ofZ 400) [] data sc Chart.chart_size) = Some (dec 18 1).
Proof. repeat split; vm_compute; reflexivity. Qed.

(** C6, amended: between a redraw at a desktop width and one at a width
    below the mobile breakpoint, the tick count asked of the x axis (the
    argument of [.ticks()], from which D3 chooses the ticks it draws) changes
    from 6 to 4, and the deaths line goes from stroke width 1.8 and opacity
    0.8 to the mobile override's 1.5 and 0.75; the vaccination line has no
    mobile override and keeps its stroke width of 1.8. *)
Theorem C6_mobile_ticks_and_deaths_stroke (wd wm : number) (data : list Row)
    (sc : scales) (cfg : config) :
  isMobile wd Config.BREAKPOINTS_mobile = false →
  lt wm Config.BREAKPOINTS_mobile = true →
  axis_ticks "axis--x" (Chart.drawAxes wd [] sc cfg) = Some 6
  ∧ axis_ticks "axis--x" (Chart.drawAxes wm [] sc cfg) = Some 4
  ∧ stroke_width "line--deaths" (Chart.drawLines wd [] data sc cfg) = Some (dec 18 1)
  ∧ stroke_width "line--deaths" (Chart.drawLines wm [] data sc cfg) = Some (dec 15 1)
  ∧ stroke_opacity "line--deaths" (Chart.drawLines wd [] data sc cfg) = Some (dec 8 1)
  ∧ stroke_opacity "line--deaths" (Chart.drawLines wm [] data sc cfg) = Some (dec 75 2)
  ∧ stroke_width "line--vaccination" (Chart.drawLines wd [] data sc cfg) = Some (dec 18 1)
  ∧ stroke_width "line--vaccination" (Chart.drawLines wm [] data sc cfg) = Some (dec 18 1).
Proof.
  intros Hd Hm. apply lt_le in Hm.
  unfold axis_ticks, stroke_width, stroke_opacity, Chart.drawAxes, Chart.drawLines.
  fold (isMobile wm Config.BREAKPOINTS_mobile) in Hm.
  rewrite Hd, Hm.
  split; [vm_compute; reflexivity|]. split; [vm_compute; reflexivity|].
  cbn [app].
  repeat split;
    first [ rewrite find_first by class_check
          | rewrite find_skip by class_check; rewrite find_first by class_check ];
    simpl mbind; attr_simpl; vm_compute; reflexivity.
Qed.

Lemma C6_mobile_ticks_and_deaths_stroke_witness :
  axis_ticks "axis--x"
    (Chart.drawAxes (ofZ 1024) []
       (Chart.buildScales identity_nice (Chart.process (csvParse gap_csv)) Chart.chart_size)
       Chart.chart_size) = Some 6.
Proof.
  assert (Hd : isMobile (ofZ 1024) Config.BREAKPOINTS_mobile = false)
    by (vm_compute; reflexivity).
  assert (Hm : lt (ofZ 400) Config.BREAKPOINTS_mobile = true)
    by (vm_compute; reflexivity).
  exact (proj1 (C6_mobile_ticks_and_deaths_stroke (ofZ 1024) (ofZ 400)
                  (Chart.process (csvParse gap_csv)) _ _ Hd Hm)).
Defined.

(** *** Redrawing *)

(** C8: the redraw that [makeResponsive] installs clears the root and
    rebuilds it from the rows in memory, so running it twice at the same
    window width leaves exactly what running it once leaves, and run after
    [initChart] on a blank page it reproduces what [initChart] drew: the same
    elements with the same attributes, hence the same number of them. *)
Theorem C8_redraw_idempotent (nice : number * number → number * number)
    (p : page) (w : number) (svg : node) (csv : option (list Row)) :
  Chart.resizeChart nice (Chart.resizeChart nice p) = Chart.resizeChart nice p
  ∧ Chart.resizeChart nice (Chart.initChart nice (blank_page w svg) csv)
    = Chart.initChart nice (blank_page w svg) csv
  ∧ count_all (drawn (Chart.resizeChart nice (Chart.resizeChart nice p)))
    = count_all (drawn (Chart.resizeChart nice p)).
Proof.
  assert (H1 : Chart.resizeChart nice (Chart.resizeChart nice p)
               = Chart.resizeChart nice p).
  { unfold Chart.resizeChart.
    destruct (root p) as [[t a cs]|] eqn:R; simpl; [|by rewrite R].
    destruct (chartData p) as [[|r l]|] eqn:D; simpl; rewrite ?D; reflexivity. }
  split; [exact H1|]. split; [|by rewrite H1].
  destruct svg as [t a cs]. destruct csv as [rawData|]; [|reflexivity].
  unfold Chart.initChart.
  destruct (Chart.process rawData) as [|r l] eqn:E.
  - reflexivity.
  - rewrite bool_decide_eq_false_2 by (simpl; lia).
    unfold Chart.makeResponsive, Chart.resizeChart, blank_page.
    cbn [root innerWidth container_html chartData chart_scales listeners
         fmap option_fmap option_map Chart.with_children].
    reflexivity.
Qed.

(** *** Milestones and comments *)

Lemma select_append_length p new (l : list node) :
  length (select_append p new l) = length l.
Proof.
  induction l as [|e l IH]; simpl; [done|].
  destruct (append_first p new e); simpl; congruence.
Qed.

Lemma addMilestone_hidden sc cfg svg m :
  milestone_visible sc cfg m = false → Chart.addMilestone sc cfg svg m = svg.
Proof. unfold milestone_visible, Chart.addMilestone. by intros ->. Qed.

Lemma addMilestone_visible sc cfg svg m :
  milestone_visible sc cfg m = true →
  length (Chart.addMilestone sc cfg svg m) = S (S (length svg)).
Proof.
  unfold milestone_visible, Chart.addMilestone. intros ->.
  match goal with |- context [if ?c then _ else _] => destruct c end;
    rewrite ?select_append_length, !length_app; simpl; lia.
Qed.

Lemma Q2Qc_inject_Z_inj a b : Q2Qc (inject_Z a) = Q2Qc (inject_Z b) → a = b.
Proof.
  intros H. apply Q2Qc_eq_iff in H. unfold Qeq in H. simpl in H. lia.
Qed.

Lemma Qclt_inject_Z a b : (Q2Qc (inject_Z a) < Q2Qc (inject_Z b))%Qc ↔ a < b.
Proof. unfold Qclt. simpl. rewrite !Qred_correct. by rewrite <- Zlt_Qlt. Qed.

Lemma Qcle_inject_Z a b : (Q2Qc (inject_Z a) ≤ Q2Qc (inject_Z b))%Qc ↔ a ≤ b.
Proof. unfold Qcle. simpl. rewrite !Qred_correct. by rewrite <- Zle_Qle. Qed.

Lemma Q2Qc_inject_Z_sub a b :
  (Q2Qc (inject_Z a) + - Q2Qc (inject_Z b))%Qc = Q2Qc (inject_Z (a - b)).
Proof.
  apply Qc_is_canon. simpl. rewrite !Qred_correct.
  unfold Z.sub. rewrite inject_Z_plus, inject_Z_opp. reflexivity.
Qed.

(** The time scale maps the start of a domain of positive span to the start
    of its range. *)
Lemma scale_domain_start (t0 t1 : Z) (wq : Qc) :
  t0 < t1 →
  scale (scaleTime (VDate t0, VDate t1) (ofZ 0, Fin wq)) (VDate t0) = Fin 0%Qc.
Proof.
  intros Hlt. unfold scale, scaleTime. simpl.
  unfold Qc_ltb. rewrite bool_decide_eq_false_2; last first.
  { intros H. apply (proj1 (Qclt_inject_Z t1 t0)) in H. lia. }
  unfold normalize. simpl.
  assert (Hne : (Q2Qc (inject_Z t1) + - Q2Qc (inject_Z t0))%Qc ≠ 0%Qc).
  { intros H.
    assert (Q2Qc (inject_Z t1) = Q2Qc (inject_Z t0)) as E.
    { transitivity ((Q2Qc (inject_Z t1) + - Q2Qc (inject_Z t0))
                    + Q2Qc (inject_Z t0))%Qc; [ring | rewrite H; ring]. }
    apply Q2Qc_inject_Z_inj in E. lia. }
  unfold Qc_eqb. rewrite bool_decide_eq_false_2 by done. simpl.
  unfold interpolateNumber, ofZ. simpl. f_equal.
  change (Q2Qc (inject_Z 0)) with 0%Qc. change (Q2Qc (inject_Z 1)) with 1%Qc.
  field. exact Hne.
Qed.










(** *** Debounce *)

Section DebounceProperties.
Context {A W : Type}.
Variable func : A → W → W.
Variable wait : Z.

Lemma next_due_singleton (now : Z) (id : nat) (d : Z) (a : A) :
  next_due now ({[ id := (d, a) ]} : gmap nat (Z * A))
  = if d <=? now then Some (id, (d, a)) else None.
Proof. unfold next_due. rewrite map_to_list_singleton. reflexivity. Qed.

Lemma advance_armed_early t a w s now :
  armed wait t a w s → now < t + Z.max 0 wait → advance func now s = s.
Proof.
  intros (id & Hid & Hp & Hw) Hnow. unfold advance. rewrite Hp.
  rewrite map_size_singleton. simpl. rewrite Hp, next_due_singleton.
  destruct (Z.leb_spec (t + Z.max 0 wait) now); [lia|done].
Qed.

Lemma advance_armed_due t a w s now :
  armed wait t a w s → t + Z.max 0 wait ≤ now →
  world (advance func now s) = func a w ∧ pending (advance func now s) = ∅.
Proof.
  intros (id & Hid & Hp & Hw) Hnow. unfold advance. rewrite Hp.
  rewrite map_size_singleton. simpl. rewrite Hp, next_due_singleton.
  destruct (Z.leb_spec (t + Z.max 0 wait) now); [|lia].
  simpl. rewrite Hw, Hid, Hp. simpl. split; [done|].
  by rewrite !delete_singleton_eq || (rewrite delete_singleton_eq; apply delete_empty).
Qed.

Lemma executedFunction_armed t (a : A) (w : W) s now b :
  armed wait t a w s → armed wait now b w (executedFunction wait now b s).
Proof.
  intros (id & Hid & Hp & Hw). exists (next_id s). simpl.
  rewrite Hid, Hp. simpl. rewrite delete_singleton_eq.
  split; [done|]. split; [|done]. by rewrite insert_empty.
Qed.

Lemma burst_armed (calls : list (Z * A)) t a w s tn an :
  armed wait t a w s → burst wait t calls →
  last ((t, a) :: calls) = Some (tn, an) →
  armed wait tn an w
        (fold_left (fun s '(t, args) => executedFunction wait t args (advance func t s))
                   calls s).
Proof.
  revert t a s. induction calls as [|[t' a'] calls IH]; intros t a s Ha Hb Hlast.
  - injection Hlast as <- <-. exact Ha.
  - destruct Hb as (Hle & Hlt & Hb). simpl fold_left.
    assert (Hadv : advance func t' s = s).
    { eapply advance_armed_early; [exact Ha|]. lia. }
    rewrite Hadv. rewrite last_cons_cons in Hlast.
    exact (IH t' a' _ (executedFunction_armed t a w s t' a' Ha) Hb Hlast).
Qed.

End DebounceProperties.

(** C9: for every burst of calls of the debounced function (each less than
    [wait] after the one before), starting with no timer pending: until
    [wait] has passed since the last call the function has not run and
    exactly one timer is pending, set by the last call (each call has
    cancelled the timer of the one before); once [wait] has passed it has
    run exactly once, with the arguments of the last call, and no timer is
    left. *)
Theorem C9_debounce_trailing_once {A W : Type} (func : A → W → W) (wait : Z)
    (w : W) (t0 : Z) (a0 : A) (calls : list (Z * A)) (tn : Z) (an : A) (t_end : Z) :
  burst wait t0 calls →
  last ((t0, a0) :: calls) = Some (tn, an) →
  tn ≤ t_end →
  let s := run func wait ((t0, a0) :: calls) t_end (start w) in
  (t_end < tn + Z.max 0 wait →
   world s = w ∧ ∃ id, pending s = {[ id := (tn + Z.max 0 wait, an) ]})
  ∧ (tn + Z.max 0 wait ≤ t_end → world s = func an w ∧ pending s = ∅).
Proof.
  intros Hb Hlast Hend s.
  assert (Harm : armed wait tn an w
            (fold_left (fun s '(t, args) =>
                          executedFunction wait t args (advance func t s))
                       ((t0, a0) :: calls) (start w))).
  { simpl fold_left.
    apply (burst_armed func wait calls t0 a0); [|exact Hb|exact Hlast].
    exists O. unfold advance, start. simpl.
    rewrite map_size_empty. simpl. split; [done|]. split; [|done].
    by rewrite insert_empty. }
  subst s. unfold run. split.
  - intros Hearly. rewrite (advance_armed_early func wait tn an w) by done.
    destruct Harm as (id & _ & Hp & Hw). eauto.
  - intros Hdue. by apply (advance_armed_due func wait tn an w).
Qed.

Lemma C9_debounce_trailing_once_witness :
  world (run (fun (a : nat) (w : list nat) => a :: w) 250
           [(0, 1%nat); (100, 2%nat); (300, 3%nat)] 550 (start [])) = [3%nat].
Proof.
  refine (proj1 (proj2 (C9_debounce_trailing_once
            (fun (a : nat) (w : list nat) => a :: w) 250 [] 0 1%nat
            [(100, 2%nat); (300, 3%nat)] 300 3%nat 550 _ _ _) _)).
  - simpl. lia.
  - reflexivity.
  - lia.
  - simpl. lia.
Defined.

(** *** Further properties of the loader and of [validateData] *)

Lemma valid_loaded_row r :
  instanceof_Date (date r) && typeof_number (deaths_7d r)
  && typeof_number (vaccinated_pct r) && negb (isNaN (deaths_7d r))
  && negb (isNaN (vaccinated_pct r)) && isFinite (deaths_7d r)
  && isFinite (vaccinated_pct r) = true →
  loaded_row r.
Proof.
  intros H. repeat (apply andb_prop in H as [H ?]).
  destruct (date_instance _ H) as [t Ht].
  destruct (finite_number (deaths_7d r)) as [q1 Hq1]; auto.
  destruct (finite_number (vaccinated_pct r)) as [q2 Hq2]; auto.
  exists t, q1, q2. auto.
Qed.

(** X1: [validateData] accepts exactly the non-empty arrays in which every
    row holds a Date and two finite numbers; the empty array is refused. *)
Theorem validateData_iff (data : list Row) :
  validateData data = true ↔ data ≠ [] ∧ Forall loaded_row data.
Proof.
  unfold validateData. destruct data as [|r l].
  - simpl. split; [discriminate | intros [H _]; congruence].
  - rewrite bool_decide_eq_false_2 by (simpl; lia).
    rewrite forallb_forall, List.Forall_forall. split.
    + intros H. split; [discriminate|]. intros x Hx. apply valid_loaded_row, H, Hx.
    + intros [_ H] x Hx. apply loaded_row_valid, H, Hx.
Qed.

(** X2: the loader judges each row on its own: a row is in the loaded
    sequence exactly when it is the conversion of a row of the file whose
    date parses and whose two fields convert to finite numbers. *)
Theorem process_membership (rawData : list Row) (r : Row) :
  In r (Chart.process rawData)
  ↔ ∃ d, In d rawData ∧ r = convert d ∧ loaded_row r.
Proof.
  split.
  - intros H. destruct (process_from_raw _ _ H) as (d & Hd & ->).
    exists d. repeat split; auto.
    pose proof (process_loaded rawData) as HF.
    eapply List.Forall_forall in HF; eauto.
  - intros (d & Hd & -> & Hl). unfold Chart.process. apply filter_In. split.
    + apply in_map_iff. exists d. auto.
    + by apply loaded_row_valid.
Qed.

Lemma process_app l1 l2 :
  Chart.process (l1 ++ l2) = Chart.process l1 ++ Chart.process l2.
Proof. unfold Chart.process. by rewrite List.map_app, List.filter_app. Qed.

(** X3: a malformed row (a date that does not parse, or a field that does
    not convert to a finite number) is dropped without any effect on the
    rows around it. *)
Theorem process_drops_malformed_row (l1 l2 : list Row) (d : Row) :
  ¬ loaded_row (convert d) →
  Chart.process (l1 ++ d :: l2) = Chart.process l1 ++ Chart.process l2.
Proof.
  intros Hbad. rewrite process_app. f_equal.
  destruct (process_cons d l2) as [-> | [_ H]]; [reflexivity | contradiction].
Qed.

Lemma process_drops_malformed_row_witness :
  Chart.process (csvParse gap_csv ++ mkRow (VStr "2021-01-02") (VStr "n/a") (VStr "11")
                                     :: csvParse out_of_range_csv)
  = Chart.process (csvParse gap_csv) ++ Chart.process (csvParse out_of_range_csv).
Proof.
  apply process_drops_malformed_row.
  intros (t & q1 & q2 & _ & H & _). vm_compute in H. discriminate.
Defined.

(** *** Gaps in the lines *)

Lemma segments_gap {A} (defined : A → bool) (l1 l2 cur : list A) (r : A) :
  forallb defined l1 = true → defined r = false →
  segments defined cur (l1 ++ r :: l2)
  = one_run (rev cur ++ l1) ++ segments defined [] l2.
Proof.
  revert cur. induction l1 as [|d l1 IH]; intros cur H1 Hr; simpl.
  - rewrite Hr, app_nil_r. destruct cur as [|c cur]; [done|].
    unfold one_run. simpl. destruct (rev cur ++ [c]) eqn:E; [|done].
    by apply app_eq_nil in E as [_ ?].
  - simpl in H1. apply andb_prop in H1 as [Hd H1]. rewrite Hd, IH by done.
    simpl. by rewrite <- app_assoc.
Qed.

Lemma loaded_defined (l : list Row) :
  Forall loaded_row l →
  forallb (defined_for deaths_7d) l = true
  ∧ forallb (defined_for vaccinated_pct) l = true.
Proof.
  intros H. split; apply forallb_forall; intros r Hr;
    eapply List.Forall_forall in H; eauto;
    destruct H as (t & q1 & q2 & Hd & H1 & H2);
    unfold defined_for; rewrite Hd, ?H1, ?H2; reflexivity.
Qed.

Lemma map_one_run {A B} (f : A → B) (l : list A) :
  map (map f) (one_run l) = one_run (map f l).
Proof. by destruct l. Qed.

Lemma line_gap {A} (x y : A → number) defined (l1 l2 : list A) (r : A) :
  forallb defined l1 = true → defined r = false → forallb defined l2 = true →
  line x y defined (l1 ++ r :: l2)
  = one_run (map (fun d => (x d, y d)) l1) ++ one_run (map (fun d => (x d, y d)) l2).
Proof.
  intros H1 Hr H2. unfold line.
  rewrite segments_gap, segments_all_defined by done. simpl.
  rewrite List.map_app, map_one_run. f_equal. by destruct l2.
Qed.

(** X4: given rows of which one lacks a deaths value (NaN, say) between
    rows that are complete, [drawLines] breaks the deaths line at that row,
    drawing the rows before it and those after it as separate runs with no
    point for the row itself, while the vaccination line runs unbroken
    through all the rows. *)
Theorem drawLines_breaks_at_missing_value (w : number) (l1 l2 : list Row) (r : Row)
    (sc : scales) (cfg : config) :
  Forall loaded_row l1 → Forall loaded_row l2 →
  defined_for deaths_7d r = false →
  defined_for vaccinated_pct r = true →
  ∃ p1 p2,
    Chart.drawLines w [] (l1 ++ r :: l2) sc cfg = [p1; p2]
    ∧ get_attr "d" p1
      = Chart.path_d (one_run (map (deaths_point sc) l1)
                      ++ one_run (map (deaths_point sc) l2))
    ∧ get_attr "d" p2
      = Chart.path_d (one_run (map (vaccination_point sc) (l1 ++ r :: l2))).
Proof.
  intros [Hd1 Hv1]%loaded_defined [Hd2 Hv2]%loaded_defined Hr Hv.
  do 2 eexists. split; [reflexivity|].
  split; rewrite get_attr_attr_opt; f_equal.
  - apply (line_gap _ _ (defined_for deaths_7d)); assumption.
  - apply (line_all_defined _ _ (defined_for vaccinated_pct)).
    rewrite forallb_app. simpl. by rewrite Hv1, Hv, Hv2.
Qed.

Lemma drawLines_breaks_at_missing_value_witness :
  ∃ p1 p2,
    Chart.drawLines (ofZ 1024) []
      (Chart.process (csvParse gap_csv)
       ++ mkRow (VDate 1609545600000) (VNum NaN) (VNum (ofZ 11))
          :: Chart.process (csvParse out_of_range_csv))
      (Chart.buildScales identity_nice (Chart.process (csvParse gap_csv)) Chart.chart_size)
      Chart.chart_size = [p1; p2]
    ∧ ∃ run1 run2, get_attr "d" p1 = Some (APath [run1; run2])
                   ∧ length run1 = 9%nat ∧ length run2 = 1%nat.
Proof.
  destruct (drawLines_breaks_at_missing_value (ofZ 1024)
              (Chart.process (csvParse gap_csv))
              (Chart.process (csvParse out_of_range_csv))
              (mkRow (VDate 1609545600000) (VNum NaN) (VNum (ofZ 11)))
              (Chart.buildScales identity_nice (Chart.process (csvParse gap_csv))
                 Chart.chart_size)
              Chart.chart_size
              (process_loaded _) (process_loaded _) eq_refl eq_refl)
    as (p1 & p2 & E & H1 & _).
  exists p1, p2. split; [exact E|].
  do 2 eexists. split; [rewrite H1; vm_compute; reflexivity|].
  split; reflexivity.
Defined.

(** *** Further properties of [debounce] *)

Section DebounceProperties2.
Context {A W : Type}.
Variable func : A → W → W.
Variable wait : Z.

Lemma advance_one_timer (t : Z) (s : loop (A:=A) (W:=W)) :
  at_most_one_timer s → at_most_one_timer (advance func t s).
Proof.
  intros [Hp | (id & d & a & Hid & Hp)]; unfold advance; rewrite Hp.
  - rewrite map_size_empty. simpl. by left.
  - rewrite map_size_singleton. simpl. rewrite Hp, next_due_singleton.
    destruct (d <=? t); [|right; eauto].
    left. simpl. rewrite Hid, Hp. simpl.
    rewrite delete_singleton_eq. apply delete_empty.
Qed.

Lemma executedFunction_one_timer (t : Z) (a : A) (s : loop (A:=A) (W:=W)) :
  at_most_one_timer s → at_most_one_timer (executedFunction wait t a s).
Proof.
  intros H. right. exists (next_id s), (t + Z.max 0 wait), a. simpl.
  split; [done|].
  destruct H as [Hp | (id & d & b & Hid & Hp)]; rewrite Hp.
  - destruct (timeout s); simpl; rewrite ?delete_empty; by rewrite insert_empty.
  - rewrite Hid. simpl. rewrite delete_singleton_eq. by rewrite insert_empty.
Qed.

Lemma executedFunction_idle (t : Z) (a : A) (s : loop (A:=A) (W:=W)) :
  pending s = ∅ → armed wait t a (world s) (executedFunction wait t a s).
Proof.
  intros Hp. exists (next_id s). simpl. split; [done|]. split; [|done].
  rewrite Hp. destruct (timeout s); simpl; rewrite ?delete_empty; by rewrite insert_empty.
Qed.

Lemma spaced_delivers (calls : list (Z * A)) t a w (s : loop (A:=A) (W:=W)) tn an :
  armed wait t a w s → spaced wait t calls →
  last ((t, a) :: calls) = Some (tn, an) →
  ∃ w', armed wait tn an w'
          (fold_left (fun s '(t, args) => executedFunction wait t args (advance func t s))
                     calls s)
        ∧ func an w' = fold_left (fun w a => func a w) (map snd calls) (func a w).
Proof.
  revert t a w s. induction calls as [|[t' a'] calls IH]; intros t a w s Ha Hs Hlast.
  - injection Hlast as <- <-. exists w. split; [exact Ha | reflexivity].
  - destruct Hs as [Hge Hs]. simpl fold_left. rewrite last_cons_cons in Hlast.
    destruct (advance_armed_due func wait t a w s t' Ha Hge) as [Hw Hp].
    pose proof (executedFunction_idle t' a' _ Hp) as Ha'. rewrite Hw in Ha'.
    destruct (IH t' a' _ _ Ha' Hs Hlast) as (w' & Harm & Hf).
    exists w'. split; [exact Harm | exact Hf].
Qed.

End DebounceProperties2.

(** X5: whatever the calls and their times, after any run of the page at
    most one timer of the debounced function is pending, and the closure's
    variable names it: a call never leaves the timer of an earlier call
    behind. *)
Theorem debounce_at_most_one_timer {A W : Type} (func : A → W → W) (wait : Z)
    (w : W) (calls : list (Z * A)) (t_end : Z) :
  at_most_one_timer (run func wait calls t_end (start w))
  ∧ (size (pending (run func wait calls t_end (start w))) ≤ 1)%nat.
Proof.
  assert (H : at_most_one_timer (run func wait calls t_end (start w))).
  { unfold run. apply advance_one_timer.
    assert (H0 : at_most_one_timer (start (A:=A) w)) by (by left).
    revert H0. generalize (start (A:=A) w).
    induction calls as [|[t a] calls IH]; intros s Hs; simpl; [exact Hs|].
    apply IH. apply executedFunction_one_timer. by apply advance_one_timer. }
  split; [exact H|].
  destruct H as [-> | (id & d & a & _ & ->)].
  - rewrite map_size_empty. lia.
  - rewrite map_size_singleton. lia.
Qed.

(** X6: calls that come at least the delay apart are not coalesced: once
    the delay has passed after the last of them, the function has run once
    for every call, in the order of the calls, each time with that call's
    arguments. *)
Theorem debounce_spaced_calls_all_run {A W : Type} (func : A → W → W) (wait : Z)
    (w : W) (t0 : Z) (a0 : A) (calls : list (Z * A)) (tn : Z) (an : A) (t_end : Z) :
  spaced wait t0 calls →
  last ((t0, a0) :: calls) = Some (tn, an) →
  tn + Z.max 0 wait ≤ t_end →
  world (run func wait ((t0, a0) :: calls) t_end (start w))
  = fold_left (fun w a => func a w) (a0 :: map snd calls) w.
Proof.
  intros Hs Hlast Hend. unfold run. simpl fold_left.
  assert (Harm : armed wait t0 a0 w
                   (executedFunction wait t0 a0 (advance func t0 (start w)))).
  { exists O. unfold advance, start. simpl. rewrite map_size_empty. simpl.
    split; [done|]. split; [|done]. by rewrite insert_empty. }
  destruct (spaced_delivers func wait calls t0 a0 w _ tn an Harm Hs Hlast)
    as (w' & Harm' & Hf).
  destruct (advance_armed_due func wait tn an w' _ t_end Harm' Hend) as [-> _].
  exact Hf.
Qed.

Lemma debounce_spaced_calls_all_run_witness :
  world (run (fun (a : nat) (w : list nat) => a :: w) 250
           [(0, 1%nat); (250, 2%nat); (900, 3%nat)] 1150 (start []))
  = [3%nat; 2%nat; 1%nat].
Proof.
  refine (debounce_spaced_calls_all_run
            (fun (a : nat) (w : list nat) => a :: w) 250 [] 0 1%nat
            [(250, 2%nat); (900, 3%nat)] 900 3%nat 1150 _ _ _).
  - simpl. lia.
  - reflexivity.
  - lia.
Defined.

(** *** The time scale over the loaded rows *)

Lemma lt_ofZ a b : lt (ofZ a) (ofZ b) = bool_decide (a < b).
Proof.
  simpl. unfold Qc_ltb. apply bool_decide_ext. apply Qclt_inject_Z.
Qed.

Lemma le_ofZ a b : le (ofZ a) (ofZ b) = bool_decide (a ≤ b).
Proof.
  simpl. unfold Qc_leb. apply bool_decide_ext. apply Qcle_inject_Z.
Qed.

(** [d3.extent] over Dates: the least and the greatest time. *)
Lemma extent_fold (ts : list Z) (a b : Z) :
  a ≤ b →
  ∃ mn mx,
    fold_left (fun '(mn, mx) v =>
      if is_nullish v then (mn, mx)
      else match mn with
           | VUndefined => if js_ge v v then (v, v) else (mn, mx)
           | _ => (if js_lt v mn then v else mn, if js_lt mx v then v else mx)
           end) (map VDate ts) (VDate a, VDate b) = (VDate mn, VDate mx)
    ∧ mn ≤ a ∧ b ≤ mx ∧ Forall (fun t => mn ≤ t ≤ mx) ts
    ∧ (mn = mx → a = b ∧ Forall (fun t => t = a) ts).
Proof.
  revert a b. induction ts as [|t ts IH]; intros a b Hab; simpl.
  - exists a, b. repeat split; auto; lia.
  - unfold js_lt. simpl ToNumber. fold (ofZ t) (ofZ a) (ofZ b).
    rewrite !lt_ofZ.
    set (a' := if bool_decide (t < a) then t else a).
    set (b' := if bool_decide (b < t) then t else b).
    assert (Ha' : a' ≤ a ∧ a' ≤ t) by (unfold a'; case_bool_decide; lia).
    assert (Hb' : b ≤ b' ∧ t ≤ b') by (unfold b'; case_bool_decide; lia).
    assert (Hx : a' = b' → a = b ∧ t = a ∧ a' = a)
      by (unfold a', b'; repeat case_bool_decide; lia).
    destruct (IH a' b') as (mn & mx & E & H1 & H2 & HF & Heq); [lia|].
    exists mn, mx. split.
    { replace (if bool_decide (t < a) then VDate t else VDate a) with (VDate a')
        by (unfold a'; by case_bool_decide).
      replace (if bool_decide (b < t) then VDate t else VDate b) with (VDate b')
        by (unfold b'; by case_bool_decide).
      exact E. }
    split; [lia|]. split; [lia|]. split.
    { constructor; [lia | exact HF]. }
    intros Hmm. destruct (Heq Hmm) as [Hab' HF'].
    destruct (Hx Hab') as (? & ? & Haa). split; [done|].
    constructor; [done|]. by rewrite <- Haa.
Qed.

Lemma extent_dates (t : Z) (ts : list Z) :
  ∃ mn mx, extent (map VDate (t :: ts)) = (VDate mn, VDate mx)
           ∧ Forall (fun t => mn ≤ t ≤ mx) (t :: ts)
           ∧ (mn = mx → Forall (fun t' => t' = mn) (t :: ts)).
Proof.
  unfold extent. simpl. unfold js_ge. simpl ToNumber. fold (ofZ t).
  unfold ge. rewrite le_ofZ, bool_decide_eq_true_2 by lia.
  destruct (extent_fold ts t t) as (mn & mx & E & H1 & H2 & HF & Heq); [lia|].
  exists mn, mx. split; [exact E|]. split.
  - constructor; [lia | exact HF].
  - intros ->. destruct (Heq eq_refl) as [_ HF'].
    assert (t = mx) as -> by lia. constructor; [done | exact HF'].
Qed.

Lemma loaded_dates (data : list Row) :
  Forall loaded_row data → ∃ ts, map date data = map VDate ts.
Proof.
  induction 1 as [|r l (t & _ & _ & Ht & _) _ [ts IH]].
  - by exists [].
  - exists (t :: ts). simpl. by rewrite Ht, IH.
Qed.

(** A time within the domain is mapped within the range. *)
Lemma scale_time_within (t0 t1 t : Z) (wq : Qc) :
  t0 ≤ t ≤ t1 → (0 ≤ wq)%Qc →
  ∃ x, scale (scaleTime (VDate t0, VDate t1) (ofZ 0, Fin wq)) (VDate t) = Fin x
       ∧ (0 ≤ x ≤ wq)%Qc.
Proof.
  intros Ht Hw. unfold scale, scaleTime. simpl.
  unfold Qc_ltb. rewrite bool_decide_eq_false_2; last first.
  { intros H. apply (proj1 (Qclt_inject_Z t1 t0)) in H. lia. }
  unfold normalize. simpl. rewrite !Q2Qc_inject_Z_sub.
  unfold Qc_eqb. destruct (decide (t0 = t1)) as [->|Hne].
  - rewrite Z.sub_diag. rewrite bool_decide_eq_true_2 by done. simpl.
    unfold interpolateNumber. simpl. eexists. split; [reflexivity|].
    change (Q2Qc (inject_Z 0)) with 0%Qc.
    replace (0 * (Q2Qc (inject_Z 1) + - Q2Qc (inject_Z 5 / inject_Z (10 ^ Z.of_nat 1)))
             + wq * Q2Qc (inject_Z 5 / inject_Z (10 ^ Z.of_nat 1)))%Qc
      with (wq * Q2Qc (1 # 2))%Qc
      by (replace (Q2Qc (inject_Z 5 / inject_Z (10 ^ Z.of_nat 1))) with (Q2Qc (1 # 2))
            by (by apply Qc_is_canon); ring).
    split.
    + apply Qcmult_nonneg_nonneg; [exact Hw | done].
    + rewrite <- (Qcmult_1_r wq) at 2.
      apply Qcmult_le_mono_nonneg_l; [exact Hw | done].
  - assert (Hpos : (0 < Q2Qc (inject_Z (t1 - t0)))%Qc).
    { apply (proj2 (Qclt_inject_Z 0 (t1 - t0))). lia. }
    assert (Hnz : Q2Qc (inject_Z (t1 - t0)) ≠ 0%Qc).
    { intros E. rewrite E in Hpos. unfold Qclt in Hpos. simpl in Hpos.
      by apply Qlt_irrefl in Hpos. }
    rewrite bool_decide_eq_false_2 by done. simpl.
    unfold interpolateNumber. simpl. eexists. split; [reflexivity|].
    change (Q2Qc (inject_Z 0)) with 0%Qc. change (Q2Qc (inject_Z 1)) with 1%Qc.
    set (u := (Q2Qc (inject_Z (t - t0)) / Q2Qc (inject_Z (t1 - t0)))%Qc).
    replace (0 * (1 + - u) + wq * u)%Qc with (wq * u)%Qc by ring.
    assert (Hu0 : (0 ≤ u)%Qc).
    { unfold u, Qcdiv. apply Qcmult_nonneg_nonneg.
      - apply (proj2 (Qcle_inject_Z 0 (t - t0))). lia.
      - apply Qclt_le_weak, Qcinv_pos, Hpos. }
    assert (Hu1 : (u ≤ 1)%Qc).
    { apply (Qcmult_lt_0_le_reg_r _ _ (Q2Qc (inject_Z (t1 - t0)))); [exact Hpos|].
      unfold u. rewrite test_field by done. rewrite Qcmult_1_l.
      apply (proj2 (Qcle_inject_Z _ _)). lia. }
    split.
    + by apply Qcmult_nonneg_nonneg.
    + rewrite <- (Qcmult_1_r wq) at 2.
      by apply Qcmult_le_mono_nonneg_l.
Qed.

(** X7: every loaded row is drawn between the left and the right edge of
    the plot: for the scales built from the loaded rows, the [x] of each
    row's date is a number from 0 to the width. *)
Theorem loaded_rows_within_plot (nice : number * number → number * number)
    (rawData : list Row) (cfg : config) (wq : Qc) :
  width cfg = Fin wq → (0 ≤ wq)%Qc →
  let data := Chart.process rawData in
  Forall (fun r => ∃ x, scale (xScale (Chart.buildScales nice data cfg)) (date r) = Fin x
                        ∧ (0 ≤ x ≤ wq)%Qc) data.
Proof.
  intros Hw Hwq data.
  destruct (loaded_dates data (process_loaded rawData)) as [ts Hts].
  unfold Chart.buildScales. simpl. rewrite Hts, Hw.
  destruct ts as [|t ts].
  { destruct data; [constructor | discriminate]. }
  destruct (extent_dates t ts) as (mn & mx & -> & HF & _).
  apply List.Forall_forall. intros r Hr.
  assert (Hin : In (date r) (map VDate (t :: ts))).
  { rewrite <- Hts. by apply in_map. }
  apply in_map_iff in Hin as (t' & <- & Hin).
  eapply List.Forall_forall in HF; [|exact Hin].
  by apply scale_time_within.
Qed.

Lemma loaded_rows_within_plot_witness :
  Forall (fun r => ∃ x,
            scale (xScale (Chart.buildScales identity_nice
                             (Chart.process (csvParse gap_csv)) Chart.chart_size))
                  (date r) = Fin x
            ∧ (0 ≤ x ≤ Q2Qc (inject_Z 572))%Qc)
         (Chart.process (csvParse gap_csv)).
Proof.
  apply (loaded_rows_within_plot identity_nice (csvParse gap_csv) Chart.chart_size).
  - reflexivity.
  - apply (proj2 (Qcle_inject_Z 0 572)). lia.
Defined.

(** *** What the draw routines add *)

Lemma addMilestones_fold_length sc cfg (ms : list Config.milestone) (svg : list node) :
  length (fold_left (Chart.addMilestone sc cfg) ms svg)
  = (length svg + 2 * length (List.filter (milestone_visible sc cfg) ms))%nat.
Proof.
  revert svg. induction ms as [|m ms IH]; intros svg; simpl; [lia|].
  rewrite IH. destruct (milestone_visible sc cfg m) eqn:E.
  - rewrite addMilestone_visible by done. simpl. lia.
  - by rewrite addMilestone_hidden.
Qed.

(** X8: [addMilestones] adds one [defs] element when the surface has none,
    and then exactly two elements (guide line and label group) for each
    milestone of the table that passes the test on [x], none for the
    others. *)
Theorem addMilestones_adds_two_per_visible (svg : list node) (sc : scales) (cfg : config) :
  length (Chart.addMilestones svg sc cfg)
  = (length svg
     + (if select_empty (has_tag "defs") svg then 1 else 0)
     + 2 * length (List.filter (milestone_visible sc cfg) Config.Legend.MILESTONES))%nat.
Proof.
  unfold Chart.addMilestones. rewrite addMilestones_fold_length.
  destruct (select_empty (has_tag "defs") svg); rewrite ?length_app; simpl; lia.
Qed.

(** X9: the direct labels of the second revision are placed by the last
    row alone: rows before it change nothing; with no row at all nothing is
    added, not even the footnote. *)
Theorem addDirectLabels_last_row_only (svg : list node) (data : list Row) (r : Row)
    (sc : scales) (cfg : config) :
  ChartDirect.addDirectLabels svg (data ++ [r]) sc cfg
  = ChartDirect.addDirectLabels svg [r] sc cfg
  ∧ ChartDirect.addDirectLabels svg [] sc cfg = svg
  ∧ length (ChartDirect.addDirectLabels svg (data ++ [r]) sc cfg) = (length svg + 3)%nat.
Proof.
  unfold ChartDirect.addDirectLabels.
  rewrite !bool_decide_eq_false_2 by (rewrite ?length_app; simpl; lia).
  rewrite last_snoc. simpl last.
  split; [reflexivity|]. split; [reflexivity|].
  rewrite !length_app. simpl. lia.
Qed.

Lemma fold_child_children (ts : list node) (g : node) :
  children (fold_left (fun g t => child t g) ts g) = children g ++ ts.
Proof.
  revert g. induction ts as [|t ts IH]; intros g; simpl.
  - by rewrite app_nil_r.
  - rewrite IH. destruct g. simpl. by rewrite <- app_assoc.
Qed.

(** X10: a comment is drawn as one group holding one text element per line
    of its text, in order, all at the same [x], each 12 units below the one
    before, starting at the scaled value plus [dy]. *)
Theorem addComment_stacks_lines (sc : scales) (svg : list node) (c : Config.comment)
    (ls : list string) :
  Config.c_text c = Config.Lines ls →
  let yScale := if bool_decide (Config.c_yType c = "right"%string)
                then yRightScale sc else yLeftScale sc in
  let yText := add (scale yScale (VNum (Config.c_yValue c)))
                   (ChartDirect.or_zero (Config.c_dy c)) in
  ∃ g, ChartDirect.addComment sc svg c = svg ++ [g]
       ∧ length (children g) = length ls
       ∧ ∀ i line, ls !! i = Some line →
           ∃ t, children g !! i = Some t
                ∧ get_attr "text" t = Some (AStr line)
                ∧ get_attr "y" t
                  = Some (ANum (add yText (ofZ (Z.of_nat i * 12)))).
Proof.
  intros Htext yScale yText. unfold ChartDirect.addComment. rewrite Htext.
  eexists. split; [reflexivity|].
  rewrite fold_child_children. simpl. split; [by rewrite length_imap|].
  intros i line Hi. rewrite list_lookup_imap, Hi. simpl.
  eexists. split; [reflexivity|].
  split; attr_simpl; reflexivity.
Qed.

Lemma addComment_stacks_lines_witness :
  ∃ g, ChartDirect.addComment
         (ChartDirect.buildScales identity_nice (Chart.process (csvParse gap_csv))
            Chart.chart_size) []
         {| Config.c_id := "blue"; Config.c_date := Some "2021-03-15"%string;
            Config.c_dateRange := None; Config.c_yType := "left";
            Config.c_yValue := ofZ 135; Config.c_anchor := Some "middle"%string;
            Config.c_dx := Some (ofZ 0); Config.c_dy := Some (ofZ (-10));
            Config.c_text := Config.Lines ["Baja"; "y cepa"]%string |} = [] ++ [g]
       ∧ length (children g) = 2%nat.
Proof.
  destruct (addComment_stacks_lines
              (ChartDirect.buildScales identity_nice (Chart.process (csvParse gap_csv))
                 Chart.chart_size) []
              {| Config.c_id := "blue"; Config.c_date := Some "2021-03-15"%string;
                 Config.c_dateRange := None; Config.c_yType := "left";
                 Config.c_yValue := ofZ 135; Config.c_anchor := Some "middle"%string;
                 Config.c_dx := Some (ofZ 0); Config.c_dy := Some (ofZ (-10));
                 Config.c_text := Config.Lines ["Baja"; "y cepa"]%string |}
              ["Baja"; "y cepa"]%string eq_refl) as (g & E & Hlen & _).
  exists g. split; [exact E | exact Hlen].
Defined.

(** X11: the redraw of the second revision (with direct labels, the
    Omicron call-out and the comments) is idempotent as well, and run after
    its [initChart] on a blank page it reproduces what [initChart] drew. *)
Theorem direct_redraw_idempotent (nice : number * number → number * number)
    (p : page) (w : number) (svg : node) (csv : option (list Row)) :
  ChartDirect.resizeChart nice (ChartDirect.resizeChart nice p)
  = ChartDirect.resizeChart nice p
  ∧ ChartDirect.resizeChart nice (ChartDirect.initChart nice (blank_page w svg) csv)
    = ChartDirect.initChart nice (blank_page w svg) csv.
Proof.
  split.
  - unfold ChartDirect.resizeChart.
    destruct (root p) as [[t a cs]|] eqn:R; simpl; [|by rewrite R].
    destruct (chartData p) as [[|r l]|] eqn:D; simpl; rewrite ?D; reflexivity.
  - destruct svg as [t a cs]. destruct csv as [rawData|]; [|reflexivity].
    unfold ChartDirect.initChart.
    destruct (ChartDirect.process rawData) as [|r l] eqn:E; [reflexivity|].
    rewrite bool_decide_eq_false_2 by (simpl; lia).
    unfold Chart.makeResponsive, ChartDirect.resizeChart, blank_page.
    cbn [root innerWidth container_html chartData chart_scales listeners
         fmap option_fmap option_map Chart.with_children].
    reflexivity.
Qed.

(** X12: a file whose rows lack one of the three columns loads nothing: a
    missing property converts to NaN (or to no date), every row is
    dropped, and [initChart] ends in the fallback message. *)
Theorem missing_column_loads_nothing (nice : number * number → number * number)
    (p : page) (rawData : list Row) :
  Forall (fun d => date d = VUndefined ∨ deaths_7d d = VUndefined
                   ∨ vaccinated_pct d = VUndefined) rawData →
  Chart.process rawData = []
  ∧ container_html (Chart.initChart nice p (Some rawData)) = Some error_message.
Proof.
  intros H.
  assert (E : Chart.process rawData = []).
  { induction H as [|d l Hd _ IH]; [reflexivity|].
    destruct (process_cons d l) as [-> | [_ (t & q1 & q2 & Ht & H1 & H2)]]; [exact IH|].
    unfold convert in *. simpl in *.
    destruct Hd as [Hd | [Hd | Hd]]; rewrite Hd in *; discriminate. }
  split; [exact E|]. unfold Chart.initChart. rewrite E. reflexivity.
Qed.

Lemma missing_column_loads_nothing_witness :
  Chart.process (csvParse "date,deaths_7d
2021-01-01,5
2021-01-02,6
") = [].
Proof.
  apply (missing_column_loads_nothing identity_nice (blank_page (ofZ 1024) chart_root)).
  repeat constructor; right; right; reflexivity.
Defined.

(** *** Font size and label position *)

Lemma digit_facts (c : ascii) :
  is_digit c = true →
  is_ws c = false ∧ is_radix_digit 10 c = true
  ∧ c ≠ "-"%char ∧ c ≠ "+"%char ∧ c ≠ "p"%char ∧ c ≠ "x"%char ∧ c ≠ "X"%char
  ∧ ∃ d, digit_value c = Some d ∧ 0 ≤ d.
Proof.
  destruct c as [[] [] [] [] [] [] [] []]; vm_compute; intros H; try discriminate;
    (repeat split; try discriminate); eexists; (split; [reflexivity | discriminate]).
Qed.

Lemma ascii_list_app (l : list ascii) (s : string) :
  ascii_list (string_of_list_ascii l ++ s)%string = l ++ ascii_list s.
Proof. induction l as [|c l IH]; simpl; [done|]. unfold ascii_list in *. simpl. by rewrite IH. Qed.

Lemma ascii_list_of_list (l : list ascii) : ascii_list (string_of_list_ascii l) = l.
Proof. apply list_ascii_of_string_of_list_ascii. Qed.

Lemma replace_first_cons pat rep c r :
  replace_first pat rep (c :: r)
  = if bool_decide (take (length pat) (c :: r) = pat)
    then rep ++ drop (length pat) (c :: r)
    else c :: replace_first pat rep r.
Proof. reflexivity. Qed.

Lemma replace_px_digits (ds : list ascii) :
  forallb is_digit ds = true →
  replace_first (ascii_list "px") [] (ds ++ ascii_list "px") = ds.
Proof.
  induction ds as [|c ds IH]; intros H; [reflexivity|].
  simpl in H. apply andb_prop in H as [Hc H].
  destruct (digit_facts c Hc) as (_ & _ & _ & _ & Hp & _).
  rewrite <- app_comm_cons, replace_first_cons.
  rewrite bool_decide_eq_false_2; [by rewrite IH|].
  destruct (ds ++ ascii_list "px"); simpl; congruence.
Qed.

Lemma takeWhile_all {A} (p : A → bool) (l : list A) :
  forallb p l = true → takeWhile p l = l.
Proof.
  induction l as [|x l IH]; simpl; [done|].
  intros [-> H]%andb_prop. by rewrite IH.
Qed.

Lemma digits_nonneg (ds : list ascii) (acc : Z) :
  0 ≤ acc →
  0 ≤ fold_left (fun acc c => acc * 10 + default 0 (digit_value c)) ds acc.
Proof.
  revert acc. induction ds as [|c ds IH]; intros acc H; simpl; [done|].
  apply IH. destruct (digit_value c) as [d|] eqn:E; simpl; [|lia].
  assert (0 ≤ d); [|lia].
  unfold digit_value in E. repeat case_match; simplify_eq; lia.
Qed.

Lemma fround_ofZ (z : Z) : Z.abs z ≤ 2 ^ 53 → fround (ofZ z) = ofZ z.
Proof.
  intros H. unfold fround, ofZ. simpl.
  rewrite (Qred_identity (inject_Z z)) by (simpl; apply Z.gcd_1_r).
  unfold to_double.
  rewrite (Qred_identity (inject_Z z)) by (simpl; apply Z.gcd_1_r). simpl.
  destruct (Z.leb_spec (Z.abs z) (2 ^ 53)); [reflexivity | lia].
Qed.

Lemma add_ofZ a b : add (ofZ a) (ofZ b) = ofZ (a + b).
Proof.
  unfold ofZ. simpl. f_equal. apply Qc_is_canon. simpl.
  rewrite !Qred_correct. by rewrite inject_Z_plus.
Qed.

Lemma parseInt_digits (ds : list ascii) :
  ds ≠ [] → forallb is_digit ds = true →
  parseInt (string_of_list_ascii ds) = fround (ofZ (digits_to_Z 10 ds)).
Proof.
  intros Hne H. unfold parseInt. rewrite ascii_list_of_list.
  destruct ds as [|c ds]; [done|].
  pose proof H as H'. simpl in H'. apply andb_prop in H' as [Hc Hds].
  destruct (digit_facts c Hc) as (Hws & _ & Hm & Hp & _).
  simpl dropWhile. rewrite Hws.
  rewrite !bool_decide_eq_false_2 by done.
  assert (Hrad : (match c :: ds with
                  | c1 :: c2 :: r =>
                      if bool_decide (c1 = "0"%char)
                         && (bool_decide (c2 = "x"%char) || bool_decide (c2 = "X"%char))
                      then (16, r) else (10, c :: ds)
                  | _ => (10, c :: ds)
                  end) = (10, c :: ds)).
  { destruct ds as [|c2 ds]; [done|].
    simpl in Hds. apply andb_prop in Hds as [Hc2 _].
    destruct (digit_facts c2 Hc2) as (_ & _ & _ & _ & _ & Hx & HX & _).
    rewrite (bool_decide_eq_false_2 (c2 = "x"%char)) by done.
    rewrite (bool_decide_eq_false_2 (c2 = "X"%char)) by done.
    by rewrite andb_false_r. }
  rewrite Hrad.
  rewrite takeWhile_all.
  - by rewrite Z.mul_1_l.
  - apply forallb_forall. intros x Hx.
    apply (proj1 (forallb_forall _ _) H) in Hx. by apply digit_facts in Hx as (_ & ? & _).
Qed.

Lemma number_to_string_ofZ (z : Z) :
  Z.abs z < 10 ^ 21 → number_to_string (ofZ z) = Some (pretty z).
Proof.
  intros H. unfold number_to_string, ofZ. simpl.
  rewrite Qred_identity by (simpl; apply Z.gcd_1_r). simpl.
  destruct (Z.ltb_spec (Z.abs z) (10 ^ 21)); [done|lia].
Qed.

Lemma sub_ofZ a b : sub (ofZ a) (ofZ b) = ofZ (a - b).
Proof. unfold sub, ofZ. simpl. f_equal. apply Q2Qc_inject_Z_sub. Qed.

Lemma Math_max_ofZ a b : Math_max (ofZ a) (ofZ b) = ofZ (Z.max a b).
Proof.
  pose proof (lt_ofZ a b) as H. unfold Math_max, ofZ in *. rewrite H.
  case_bool_decide; f_equal; f_equal; f_equal; lia.
Qed.

(** X13: away from mobile [getResponsiveFontSize] returns the size it was
    given; on mobile a size written as digits followed by [px], of value up
    to 2^53, comes back one pixel smaller, but never below [10px]; above
    2^53 the size read is the rounded one (2^53 + 1 is read as 2^53); a size
    with no leading number comes back as [NaNpx]. *)
Theorem getResponsiveFontSize_floor_10 (ds : list ascii) (baseSize : string) :
  ds ≠ [] → forallb is_digit ds = true → digits_to_Z 10 ds ≤ 2 ^ 53 →
  getResponsiveFontSize (string_of_list_ascii ds ++ "px") true
  = Some (pretty (Z.max 10 (digits_to_Z 10 ds - 1)) ++ "px")%string
  ∧ getResponsiveFontSize baseSize false = Some baseSize
  ∧ getResponsiveFontSize "9007199254740993px" true = Some "9007199254740991px"%string
  ∧ getResponsiveFontSize "large" true = Some "NaNpx"%string.
Proof.
  intros Hne Hd Hle.
  split; [|split; [reflexivity | split; vm_compute; reflexivity]].
  unfold getResponsiveFontSize, replace. simpl negb. cbv iota.
  rewrite ascii_list_app.
  change (ascii_list "") with (@nil ascii).
  rewrite replace_px_digits by done. rewrite parseInt_digits by done.
  pose proof (digits_nonneg ds 0 ltac:(lia)) as Hnn. fold (digits_to_Z 10 ds) in Hnn.
  rewrite fround_ofZ by lia. rewrite sub_ofZ, fround_ofZ by lia.
  rewrite Math_max_ofZ, number_to_string_ofZ by lia. reflexivity.
Qed.

Lemma getResponsiveFontSize_floor_10_witness :
  getResponsiveFontSize "12px" true = Some "11px"%string
  ∧ getResponsiveFontSize "10px" true = Some "10px"%string.
Proof.
  split.
  - refine (proj1 (getResponsiveFontSize_floor_10 (ascii_list "12") "" _ _ _));
      [discriminate | reflexivity | vm_compute; discriminate].
  - refine (proj1 (getResponsiveFontSize_floor_10 (ascii_list "10") "" _ _ _));
      [discriminate | reflexivity | vm_compute; discriminate].
Defined.

(** X14: [getSafeLabelPosition] on integer positions (magnitudes up to
    2^51, where its sums are exact in binary64): the label keeps the start
    anchor, 8 units right of [x], exactly when [x + labelWidth] does not
    pass the width, and then its far edge passes the width by at most those
    8 units; otherwise it is anchored at its end, [labelWidth + 8] units
    left of [x]. *)
Theorem getSafeLabelPosition_cases (x w lw : Z) :
  Z.abs x ≤ 2 ^ 51 → Z.abs lw ≤ 2 ^ 51 → Z.abs w ≤ 2 ^ 53 →
  let p := getSafeLabelPosition (ofZ x) (ofZ w) (ofZ lw) in
  (x + lw ≤ w →
   textAnchor p = "start"%string ∧ lp_x p = ofZ (x + 8)
   ∧ (x + 8) + lw ≤ w + 8)
  ∧ (w < x + lw →
     textAnchor p = "end"%string ∧ lp_x p = ofZ (x - lw - 8)).
Proof.
  intros Hx Hlw Hw p. unfold p, getSafeLabelPosition.
  rewrite !add_ofZ, !sub_ofZ, !fround_ofZ, sub_ofZ, fround_ofZ by lia.
  unfold gt. rewrite lt_ofZ. split; intros H.
  - rewrite bool_decide_eq_false_2 by lia. simpl. repeat split; lia.
  - rewrite bool_decide_eq_true_2 by lia. simpl. by split.
Qed.

Lemma getSafeLabelPosition_cases_witness :
  textAnchor (getSafeLabelPosition (ofZ 500) (ofZ 572) (ofZ 100)) = "end"%string
  ∧ lp_x (getSafeLabelPosition (ofZ 500) (ofZ 572) (ofZ 100)) = ofZ 392.
Proof.
  refine (proj2 (getSafeLabelPosition_cases 500 572 100 _ _ _) _); simpl; lia.
Defined.

(** X15: over the scales built from the rows, when the earliest and the
    latest date differ the earliest is drawn at x = 0 and the latest at
    x = width; when all rows share one date (a domain of zero span) every
    date is drawn at the middle of the plot. *)
Theorem time_scale_ends_and_zero_span (nice : number * number → number * number)
    (data : list Row) (cfg : config) (t0 t1 : Z) (wq : Qc) :
  extent (map date data) = (VDate t0, VDate t1) →
  width cfg = Fin wq →
  let sc := Chart.buildScales nice data cfg in
  (t0 < t1 →
   scale (xScale sc) (VDate t0) = Fin 0%Qc ∧ scale (xScale sc) (VDate t1) = Fin wq)
  ∧ (t0 = t1 → ∀ t, scale (xScale sc) (VDate t) = Fin (wq * Q2Qc (1 # 2))%Qc).
Proof.
  intros Hext Hw sc. unfold sc, Chart.buildScales. simpl. rewrite Hext, Hw. split.
  - intros Hlt. split; [by apply scale_domain_start|].
    unfold scale, scaleTime. simpl.
    unfold Qc_ltb. rewrite bool_decide_eq_false_2; last first.
    { intros H. apply (proj1 (Qclt_inject_Z t1 t0)) in H. lia. }
    unfold normalize. simpl. rewrite !Q2Qc_inject_Z_sub.
    assert (Hnz : Q2Qc (inject_Z (t1 - t0)) ≠ 0%Qc).
    { intros E. change 0%Qc with (Q2Qc (inject_Z 0)) in E.
      apply Q2Qc_inject_Z_inj in E. lia. }
    unfold Qc_eqb. rewrite bool_decide_eq_false_2 by done. simpl.
    unfold interpolateNumber. simpl. f_equal.
    change (Q2Qc (inject_Z 0)) with 0%Qc. change (Q2Qc (inject_Z 1)) with 1%Qc.
    field. exact Hnz.
  - intros <- t. unfold scale, scaleTime. simpl.
    unfold Qc_ltb. rewrite bool_decide_eq_false_2; last first.
    { intros H. apply (proj1 (Qclt_inject_Z t0 t0)) in H. lia. }
    unfold normalize. simpl. rewrite !Q2Qc_inject_Z_sub, Z.sub_diag.
    unfold Qc_eqb. rewrite bool_decide_eq_true_2 by done. simpl.
    unfold interpolateNumber. simpl. f_equal.
    replace (Q2Qc (inject_Z 5 / inject_Z (10 ^ Z.of_nat 1))) with (Q2Qc (1 # 2))
      by (by apply Qc_is_canon).
    change (Q2Qc (inject_Z 0)) with 0%Qc. ring.
Qed.

Lemma time_scale_ends_and_zero_span_witness :
  scale (xScale (Chart.buildScales identity_nice (Chart.process (csvParse gap_csv))
                   Chart.chart_size)) (VDate 1609459200000)
  = Fin (Q2Qc (inject_Z 572)).
Proof.
  refine (proj2 (proj1 (time_scale_ends_and_zero_span identity_nice
            (Chart.process (csvParse gap_csv)) Chart.chart_size
            1608768000000 1609459200000 (Q2Qc (inject_Z 572)) _ _) _)).
  - vm_compute. reflexivity.
  - reflexivity.
  - reflexivity.
Defined.
